(** * DeepSeek AI Assistant: conversation memory, attachment ingestion and
      the completion request, embedded from [deepseek-assistant.py].

    The development follows the source file top to bottom:
    - Python values as the code handles them (strings as sequences of code
      points, JSON-derived values, exceptions);
    - [ChatMemory] over the two session keys it owns, as a state-and-exception
      monad (a raised exception keeps the mutations made before it);
    - [process_uploaded_files] with the outcomes of the external calls
      ([file.read], [PyPDF2.PdfReader], [page.extract_text]) as data;
    - [query_deepseek] over an arbitrary behaviour of [requests.post];
    - the two pages and the entry point, one run of the script at a time:
      what the input widgets return in a run is data, and a page's result
      lists the elements its own lines show.
    Logging calls, and the display calls inside [process_uploaded_files] and
    [query_deepseek], only produce output and are left out, except where
    evaluating their argument can raise. *)

From Stdlib Require Import String Ascii ZArith NArith Lia Bool QArith.
From Stdlib.Strings Require Import Byte.
From Stdlib Require Import List.
Import ListNotations.
Local Open Scope Z_scope.
Set Warnings "-register-all".

(** ** Python strings, values and exceptions *)

(** A Python [str] is a sequence of Unicode code points. *)
Definition codepoint := N.
Definition str := list codepoint.

(** A string literal of the source. *)
Definition pystr (s : string) : str :=
  map N_of_ascii (list_ascii_of_string s).

Fixpoint str_eqb (a b : str) : bool :=
  match a, b with
  | [], [] => true
  | x :: a', y :: b' => N.eqb x y && str_eqb a' b'
  | _, _ => false
  end.

(** Values reaching the code at run time: what [response.json()] builds, and
    the [str] arguments of the calls. A dict is kept as its item list; [get]
    reads the first binding of a key. Numeric payloads are never inspected. *)
Inductive value :=
| VNone
| VBool (b : bool)
| VInt (n : Z)
| VFloat (q : Q)
| VStr (s : str)
| VList (l : list value)
| VDict (d : list (str * value)).

Inductive exception :=
| IndexError
| KeyError
| TypeError
| AttributeError
| RequestException (descr : str)   (* requests.exceptions.RequestException and subclasses *)
| Exception (descr : str).         (* any other exception of an external call *)

Inductive outcome (A : Type) :=
| Return (a : A)
| Raise (e : exception).
Arguments Return {A} a.
Arguments Raise {A} e.

(** ** Slices *)

(** [l[i:]] *)
Definition slice_from {A} (i : Z) (l : list A) : list A :=
  if i <? 0 then skipn (Z.to_nat (Z.of_nat (length l) + i)) l
  else skipn (Z.to_nat i) l.

(** [l[:j]] *)
Definition slice_to {A} (j : Z) (l : list A) : list A :=
  if j <? 0 then firstn (Z.to_nat (Z.of_nat (length l) + j)) l
  else firstn (Z.to_nat j) l.

(** [v[:50]] as evaluated in the trimming log line: only sequences can be
    sliced (a dict raises TypeError up to Python 3.11 and KeyError after). *)
Definition getslice50 (v : value) : outcome value :=
  match v with
  | VStr s => Return (VStr (slice_to 50 s))
  | VList l => Return (VList (slice_to 50 l))
  | _ => Raise TypeError
  end.

(** ** Configuration *)

Definition MAX_CONTEXT_MESSAGES : Z := 8.
Definition MAX_FILE_CONTENT : Z := 1000.

(** ** Session state and the memory monad *)

Record Message := { role : str; content : value }.

(** The two keys of [st.session_state] that [ChatMemory] owns. *)
Record session_state := {
  messages : list Message;
  full_history : list Message
}.

Definition M (A : Type) : Type := session_state -> session_state * outcome A.

Definition ret {A} (a : A) : M A := fun st => (st, Return a).
Definition raise {A} (e : exception) : M A := fun st => (st, Raise e).
Definition bind {A B} (m : M A) (k : A -> M B) : M B :=
  fun st =>
    match m st with
    | (st', Return a) => k a st'
    | (st', Raise e) => (st', Raise e)
    end.
Definition modify (f : session_state -> session_state) : M unit :=
  fun st => (f st, Return tt).
Definition lift {A} (o : outcome A) : M A := fun st => (st, o).

Declare Scope py_scope.
Delimit Scope py_scope with py.
Notation "x <- m ;; k" := (bind m (fun x => k))
  (at level 61, m at next level, right associativity) : py_scope.
Notation "m ;; k" := (bind m (fun _ => k))
  (at level 61, right associativity) : py_scope.
Local Open Scope py_scope.

(** ** class ChatMemory *)

Module ChatMemory.

Record t := { max_messages : Z }.

(** [initialize_session]: [None] is a session without the key "messages". *)
Definition initialize_session (st : option session_state) : session_state :=
  match st with
  | None => {| messages := []; full_history := [] |}
  | Some s => s
  end.

(** [__init__] *)
Definition init (max_messages : Z) (st : option session_state)
  : t * session_state :=
  ({| max_messages := max_messages |}, initialize_session st).

(** The loop of [add_message] on the context log: while it is longer than
    the bound, [pop(0)] (IndexError on an empty list), then format the
    removed content for the debug line. *)
Fixpoint trim (bound : Z) (h : list Message) : list Message * outcome unit :=
  if Z.of_nat (length h) >? bound then
    match h with
    | [] => ([], Raise IndexError)
    | removed :: rest =>
        match getslice50 (content removed) with
        | Return _ => trim bound rest
        | Raise e => (rest, Raise e)
        end
    end
  else (h, Return tt).

Definition trim_history (self : t) : M unit :=
  fun st =>
    let (h, r) := trim (max_messages self) (full_history st) in
    ({| messages := messages st; full_history := h |}, r).

Definition add_message (self : t) (role : str) (content : value) : M unit :=
  let m := {| role := role; content := content |} in
  modify (fun st => {| messages := messages st ++ [m];
                       full_history := full_history st |}) ;;
  modify (fun st => {| messages := messages st;
                       full_history := full_history st ++ [m] |}) ;;
  trim_history self.

Definition get_context (self : t) (system_prompt : str) (st : session_state)
  : list Message :=
  [{| role := pystr "system"; content := VStr system_prompt |}]
    ++ slice_from (- max_messages self) (full_history st).

Definition clear_memory : M unit :=
  modify (fun _ => {| messages := []; full_history := [] |}).

End ChatMemory.

(** A call [add_message(role, content)] with arguments of the declared
    types, and a sequence of such calls on one memory object. *)
Definition call : Type := str * str.

Definition message_of (c : call) : Message :=
  {| role := fst c; content := VStr (snd c) |}.

Fixpoint add_messages (self : ChatMemory.t) (calls : list call) : M unit :=
  match calls with
  | [] => ret tt
  | c :: rest =>
      ChatMemory.add_message self (fst c) (VStr (snd c)) ;;
      add_messages self rest
  end.

(** ** Attachments *)

(** Sequencing of calls that may raise, outside the session monad. *)
Definition obind {A B} (o : outcome A) (k : A -> outcome B) : outcome B :=
  match o with
  | Return a => k a
  | Raise e => Raise e
  end.
Notation "x <~ o ;; k" := (obind o (fun x => k))
  (at level 61, o at next level, right associativity) : py_scope.

(** [sep.join(l)] *)
Definition join (sep : str) (l : list str) : str :=
  match l with
  | [] => []
  | x :: rest => x ++ flat_map (fun y => sep ++ y) rest
  end.

(** [bytes.decode("utf-8", errors="replace")]: every maximal ill-formed
    prefix becomes one U+FFFD and decoding resumes at the offending byte. *)
Definition REPLACEMENT_CHARACTER : codepoint := 0xFFFD%N.

Definition continuation (b : N) : bool := ((0x80 <=? b) && (b <=? 0xBF))%N.

Definition second_byte (b0 b1 : N) : bool :=
  (if b0 =? 0xE0 then (0xA0 <=? b1) && (b1 <=? 0xBF)
   else if b0 =? 0xED then (0x80 <=? b1) && (b1 <=? 0x9F)
   else if b0 =? 0xF0 then (0x90 <=? b1) && (b1 <=? 0xBF)
   else if b0 =? 0xF4 then (0x80 <=? b1) && (b1 <=? 0x8F)
   else continuation b1)%N.

Fixpoint decode (bs : list byte) : str :=
  match bs with
  | [] => []
  | x0 :: r0 =>
      let b0 := Byte.to_N x0 in
      let bad := REPLACEMENT_CHARACTER :: decode r0 in
      (if b0 <? 0x80 then b0 :: decode r0
       else if (0xC2 <=? b0) && (b0 <=? 0xDF) then
         match r0 with
         | x1 :: r1 =>
             let b1 := Byte.to_N x1 in
             if continuation b1
             then ((b0 - 0xC0) * 64 + (b1 - 0x80)) :: decode r1
             else bad
         | [] => bad
         end
       else if (0xE0 <=? b0) && (b0 <=? 0xEF) then
         match r0 with
         | x1 :: r1 =>
             let b1 := Byte.to_N x1 in
             if second_byte b0 b1 then
               match r1 with
               | x2 :: r2 =>
                   let b2 := Byte.to_N x2 in
                   if continuation b2
                   then ((b0 - 0xE0) * 4096 + (b1 - 0x80) * 64 + (b2 - 0x80))
                          :: decode r2
                   else REPLACEMENT_CHARACTER :: decode r1
               | [] => [REPLACEMENT_CHARACTER]
               end
             else bad
         | [] => bad
         end
       else if (0xF0 <=? b0) && (b0 <=? 0xF4) then
         match r0 with
         | x1 :: r1 =>
             let b1 := Byte.to_N x1 in
             if second_byte b0 b1 then
               match r1 with
               | x2 :: r2 =>
                   let b2 := Byte.to_N x2 in
                   if continuation b2 then
                     match r2 with
                     | x3 :: r3 =>
                         let b3 := Byte.to_N x3 in
                         if continuation b3
                         then ((b0 - 0xF0) * 262144 + (b1 - 0x80) * 4096
                               + (b2 - 0x80) * 64 + (b3 - 0x80)) :: decode r3
                         else REPLACEMENT_CHARACTER :: decode r2
                     | [] => [REPLACEMENT_CHARACTER]
                     end
                   else REPLACEMENT_CHARACTER :: decode r1
               | [] => [REPLACEMENT_CHARACTER]
               end
             else bad
         | [] => bad
         end
       else bad)%N
  end.

(** A page of a parsed PDF: what [page.extract_text()] does. *)
Record page := { extract_text : outcome (option str) }.

(** An uploaded file, with what the two external readers do on it. *)
Record UploadedFile := {
  name : str;
  type : str;
  read : outcome (list byte);          (* file.read() *)
  PdfReader : outcome (list page)      (* PyPDF2.PdfReader(file).pages *)
}.

(** [x or ""] *)
Definition or_empty (x : option str) : str :=
  match x with
  | Some s => s
  | None => []
  end.

(** The generator [page.extract_text() or "" for page in pdf_reader.pages],
    consumed in order; the first page that raises ends it. *)
Fixpoint page_texts (pages : list page) : outcome (list str) :=
  match pages with
  | [] => Return []
  | p :: rest =>
      t <~ extract_text p ;;
      ts <~ page_texts rest ;;
      Return (or_empty t :: ts)
  end.

(** The body of the [try] for one file. *)
Definition snippet (file : UploadedFile) : outcome str :=
  if str_eqb (type file) (pystr "application/pdf") then
    pages <~ PdfReader file ;;
    texts <~ page_texts pages ;;
    let text := join (pystr " ") texts in
    Return (pystr "PDF_CONTENT:" ++ name file ++ pystr ": "
              ++ slice_to MAX_FILE_CONTENT text ++ pystr "...")
  else
    data <~ read file ;;
    let content := decode data in
    Return (pystr "FILE_CONTENT:" ++ name file ++ pystr ": "
              ++ slice_to MAX_FILE_CONTENT content ++ pystr "...").

(** The [for] loop: a file whose body raises is reported and skipped. *)
Fixpoint process_files (files : list UploadedFile) (processed_content : list str)
  : list str :=
  match files with
  | [] => processed_content
  | file :: rest =>
      match snippet file with
      | Return s => process_files rest (processed_content ++ [s])
      | Raise _ => process_files rest processed_content
      end
  end.

Definition newline : str := [10%N].

Definition process_uploaded_files (files : list UploadedFile) : str :=
  join newline (process_files files []).

(** ** The completion request *)

Definition API_URL : str := pystr "https://api.deepseek.com/v1/chat/completions".

(** [d.get(key, default)] on a dict's items. *)
Fixpoint lookup (key : str) (d : list (str * value)) : option value :=
  match d with
  | [] => None
  | (k, v) :: rest => if str_eqb k key then Some v else lookup key rest
  end.

(** [v.get(key, default)]: only a dict has the method. *)
Definition get (v : value) (key : str) (default : value) : outcome value :=
  match v with
  | VDict d =>
      Return (match lookup key d with
              | Some x => x
              | None => default
              end)
  | _ => Raise AttributeError
  end.

(** [v[0]] *)
Definition getitem0 (v : value) : outcome value :=
  match v with
  | VList (x :: _) => Return x
  | VList [] => Raise IndexError
  | VStr (c :: _) => Return (VStr [c])
  | VStr [] => Raise IndexError
  | VDict _ => Raise KeyError          (* the keys of a parsed object are strings *)
  | VNone | VBool _ | VInt _ | VFloat _ => Raise TypeError
  end.

(** [response_data.get("choices", [{}])[0].get("message", {}).get("content", "")] *)
Definition extract_content (response_data : value) : outcome value :=
  choices <~ get response_data (pystr "choices") (VList [VDict []]) ;;
  first <~ getitem0 choices ;;
  message <~ get first (pystr "message") (VDict []) ;;
  get message (pystr "content") (VStr []).

Section Completion.

(** Python floats are only passed through. *)
Variable float : Type.

Record payload := {
  model : str;
  payload_messages : list Message;
  temperature : float
}.

Record request := {
  url : str;
  headers : list (str * str);
  json : payload
}.

Record response := {
  status_code : Z;
  response_json : outcome value      (* response.json() *)
}.

(** What the network does with the one request of a call. *)
Variable requests_post : request -> outcome response.

(** [response.raise_for_status()]: HTTPError on 4xx and 5xx. *)
Definition raise_for_status (r : response) : outcome unit :=
  if (400 <=? status_code r) && (status_code r <? 600)
  then Raise (RequestException (pystr "HTTPError"))
  else Return tt.

Definition build_request (key prompt system_prompt : str)
    (memory : ChatMemory.t) (model : str) (temperature : float)
    (st : session_state) : request :=
  {| url := API_URL;
     headers := [(pystr "Authorization", pystr "Bearer " ++ key);
                 (pystr "Content-Type", pystr "application/json")];
     json := {| model := model;
                payload_messages :=
                  ChatMemory.get_context memory system_prompt st
                    ++ [{| role := pystr "user"; content := VStr prompt |}];
                temperature := temperature |} |}.

(** [try: m except requests.exceptions.RequestException: handler] *)
Definition try_except_RequestException {A} (m handler : M A) : M A :=
  fun st =>
    match m st with
    | (st', Raise (RequestException _)) => handler st'
    | r => r
    end.

(** [DEESEEK_API_KEY] is the entry of [st.session_state] under that key,
    [None] when the key is absent (the lookup is outside the [try]). *)
Definition query_deepseek (DEESEEK_API_KEY : option str)
    (prompt system_prompt : str) (memory : ChatMemory.t)
    (model : str) (temperature : float) : M (option value) :=
  key <- lift (match DEESEEK_API_KEY with
               | Some k => Return k
               | None => Raise KeyError
               end) ;;
  try_except_RequestException
    (fun st =>
       (response <- lift (requests_post
                    (build_request key prompt system_prompt memory
                                   model temperature st)) ;;
        lift (raise_for_status response) ;;
        if status_code response =? 200 then
          response_data <- lift (response_json response) ;;
          assistant_response <- lift (extract_content response_data) ;;
          ChatMemory.add_message memory (pystr "user") (VStr prompt) ;;
          ChatMemory.add_message memory (pystr "assistant") assistant_response ;;
          ret (Some response_data)
        else
          ret None) st)
    (ret None).

End Completion.

Arguments build_request {float}.
Arguments query_deepseek {float}.

(** ** The pages *)

(** [bool(v)] *)
Definition truthy (v : value) : bool :=
  match v with
  | VNone => false
  | VBool b => b
  | VInt n => negb (n =? 0)
  | VFloat q => negb (Qnum q =? 0)
  | VStr [] => false
  | VStr (_ :: _) => true
  | VList [] => false
  | VList (_ :: _) => true
  | VDict [] => false
  | VDict (_ :: _) => true
  end.

Fixpoint starts_with (prefix s : str) : bool :=
  match prefix, s with
  | [], _ => true
  | x :: prefix', y :: s' => N.eqb x y && starts_with prefix' s'
  | _ :: _, [] => false
  end.

(** [sub in s] on strings *)
Fixpoint contains (sub s : str) : bool :=
  match s with
  | [] => starts_with sub []
  | _ :: rest => starts_with sub s || contains sub rest
  end.

(** [sub in v]: substring of a string, element of a list, key of a dict;
    the other values are not iterable. *)
Definition value_contains (sub : str) (v : value) : outcome bool :=
  match v with
  | VStr s => Return (contains sub s)
  | VList l =>
      Return (existsb (fun x => match x with
                                | VStr t => str_eqb t sub
                                | _ => false
                                end) l)
  | VDict d => Return (existsb (fun kv => str_eqb (fst kv) sub) d)
  | VNone | VBool _ | VInt _ | VFloat _ => Raise TypeError
  end.

(** The text before the first [sep] and, when there is one, the text after. *)
Fixpoint break_at (sep : codepoint) (s : str) : str * option str :=
  match s with
  | [] => ([], None)
  | c :: rest =>
      if N.eqb c sep then ([], Some rest)
      else let (before, after) := break_at sep rest in (c :: before, after)
  end.

(** [s.split(sep, maxsplit)] for a separator of one character. *)
Fixpoint split (sep : codepoint) (maxsplit : nat) (s : str) : list str :=
  match maxsplit with
  | O => [s]
  | S n =>
      match break_at sep s with
      | (before, None) => [before]
      | (before, Some after) => before :: split sep n after
      end
  end.

Definition colon : codepoint := 58%N.

(** [v.split(":", 2)]: only a string has the method. *)
Definition value_split (v : value) : outcome (list str) :=
  match v with
  | VStr s => Return (split colon 2 s)
  | _ => Raise AttributeError
  end.

(** [parts[0]] and [parts[-1]] *)
Definition first_item (parts : list str) : outcome str :=
  match parts with
  | [] => Raise IndexError
  | x :: _ => Return x
  end.

Definition last_item (parts : list str) : outcome str :=
  match rev parts with
  | [] => Raise IndexError
  | x :: _ => Return x
  end.

(** What the display calls put on the page, in call order. *)
Inductive element :=
| st_title (body : str)
| st_write (body : str)
| st_text (body : str)
| st_markdown (body : str)
| st_error (body : str)
| st_success (body : str)
| st_expander (label : str) (inside : list element)
| st_sidebar (inside : list element).

(** The whole of [st.session_state]: the two logs (absent until a
    [ChatMemory] is built) and the two keys written by the login page. *)
Record app_session := {
  chat : option session_state;
  DEESEEK_API_KEY : option str;
  logged_in : option bool
}.

(** [login_page]: [api_key] and [button] are what the two input widgets
    return in this run. *)
Definition login_page (api_key : str) (button : bool) (s : app_session)
  : app_session * list element :=
  let title := st_title ([0x767B; 0x5F55]%N ++ pystr " DeepSeek API") in
  if button then
    match api_key with
    | _ :: _ =>
        ({| chat := chat s;
            DEESEEK_API_KEY := Some api_key;
            logged_in := Some true |},
         [title; st_success [0x767B; 0x5F55; 0x6210; 0x529F; 0xFF01]%N])
    | [] =>
        (s, [title;
             st_error ([0x8BF7; 0x8F93; 0x5165; 0x6709; 0x6548; 0x7684]%N
                         ++ pystr " API Key")])
    end
  else (s, [title]).

Section Interface.

Variable float : Type.

(** [str(v)] for a value that is not a string, and [str(e)]. *)
Variable py_str : value -> str.
Variable exception_str : exception -> str.

(** [f"{v}"] *)
Definition format_value (v : value) : str :=
  match v with
  | VStr s => s
  | _ => py_str v
  end.

(** The body of the loop over the display log. *)
Definition render_message (msg : Message) : outcome (list element) :=
  let role := if str_eqb (role msg) (pystr "user")
              then pystr "User" else pystr "Assistant" in
  let content := content msg in
  file <~ value_contains (pystr "FILE_CONTENT") content ;;
  marked <~ (if file then Return true
             else value_contains (pystr "PDF_CONTENT") content) ;;
  if marked then
    parts <~ value_split content ;;
    head <~ first_item parts ;;
    tail <~ last_item parts ;;
    Return [st_write (role ++ pystr ": " ++ head);
            st_expander (pystr "Attached Files") [st_text tail]]
  else
    Return [st_write (role ++ pystr ": " ++ format_value content)].

(** The loop: the elements shown so far, and how the loop ended. *)
Fixpoint render_history (msgs : list Message) : list element * outcome unit :=
  match msgs with
  | [] => ([], Return tt)
  | msg :: rest =>
      match render_message msg with
      | Raise e => ([], Raise e)
      | Return shown =>
          let (more, r) := render_history rest in (shown ++ more, r)
      end
  end.

(** The widgets of the main page, by what they return in this run. *)
Record inputs := {
  model_choice : str;
  temperature_level : float;
  system_role : str;
  uploaded_files : list UploadedFile;
  user_input : str
}.

(** [try: m except Exception as e: handler e] *)
Definition try_except_Exception {A} (m : M A) (handler : exception -> M A) : M A :=
  fun st =>
    match m st with
    | (st', Raise e) => handler e st'
    | r => r
    end.

Definition file_context_of (files : list UploadedFile) : str :=
  match files with
  | [] => []
  | _ :: _ => process_uploaded_files files
  end.

Definition full_prompt_of (user_input file_context : str) : str :=
  match file_context with
  | [] => user_input
  | _ :: _ => user_input ++ newline ++ file_context
  end.

(** The body of [if response:] *)
Definition render_reply (response : option value) : outcome (list element) :=
  match response with
  | None => Return []
  | Some data =>
      if truthy data then
        content <~ extract_content data ;;
        if truthy content
        then Return [st_markdown (pystr "Assistant: " ++ format_value content)]
        else Return [st_error (pystr "Failed to get valid response from API")]
      else Return []
  end.

(** The body of [if user_input:]. The result lists the elements shown by
    these lines themselves. *)
Definition handle_input (requests_post : request float -> outcome response)
    (api_key : option str) (memory : ChatMemory.t) (i : inputs)
  : M (list element) :=
  let file_context := file_context_of (uploaded_files i) in
  let full_prompt := full_prompt_of (user_input i) file_context in
  let echo :=
    st_write (pystr "User: " ++ user_input i)
      :: match file_context with
         | [] => []
         | _ :: _ => [st_expander (pystr "Attached Files") [st_text file_context]]
         end in
  shown <- try_except_Exception
             (response <- query_deepseek requests_post api_key full_prompt
                            (system_role i) memory (model_choice i)
                            (temperature_level i) ;;
              lift (render_reply response))
             (fun e => ret [st_error (pystr "Communication error: "
                                        ++ exception_str e)]) ;;
  ret (echo ++ shown).

(** [main_interface], on the logs part of the session. The result lists the
    elements shown by the lines of the function itself. *)
Definition main_interface (requests_post : request float -> outcome response)
    (api_key : option str) (i : inputs) (session : option session_state)
  : session_state * outcome (list element) :=
  let (memory, st) := ChatMemory.init MAX_CONTEXT_MESSAGES session in
  let page := [st_title (pystr "DeepSeek AI Assistant");
               st_sidebar [st_title (pystr "Control Panel")]] in
  match render_history (messages st) with
  | (_, Raise e) => (st, Raise e)
  | (history, Return _) =>
      match user_input i with
      | [] => (st, Return (page ++ history))
      | _ :: _ =>
          (shown <- handle_input requests_post api_key memory i ;;
           ret (page ++ history ++ shown)) st
      end
  end.

(** What the widgets of either page return in one run of the script. *)
Record widgets := {
  login_api_key : str;
  login_button : bool;
  main_inputs : inputs
}.

(** One run of the script: the entry point at the end of the file. *)
Definition script (requests_post : request float -> outcome response)
    (w : widgets) (s : app_session) : app_session * outcome (list element) :=
  match logged_in s with
  | Some true =>
      let (st, r) := main_interface requests_post (DEESEEK_API_KEY s)
                                    (main_inputs w) (chat s) in
      ({| chat := Some st;
          DEESEEK_API_KEY := DEESEEK_API_KEY s;
          logged_in := logged_in s |}, r)
  | _ =>
      let (s', shown) := login_page (login_api_key w) (login_button w) s in
      (s', Return shown)
  end.

(** The sessions the script can be in: a new one, and what a run leaves. *)
Inductive reachable : app_session -> Prop :=
| reachable_new :
    reachable {| chat := None; DEESEEK_API_KEY := None; logged_in := None |}
| reachable_run requests_post w s :
    reachable s -> reachable (fst (script requests_post w s)).

End Interface.

Arguments model_choice {float}.
Arguments temperature_level {float}.
Arguments system_role {float}.
Arguments uploaded_files {float}.
Arguments user_input {float}.
Arguments login_api_key {float}.
Arguments login_button {float}.
Arguments main_inputs {float}.
Arguments handle_input {float}.
Arguments main_interface {float}.
Arguments script {float}.
Arguments reachable {float}.

(** ** Vocabulary of the statements *)

(** The last [n] entries of a log, oldest first. *)
Definition last_entries {A} (n : nat) (l : list A) : list A :=
  skipn (length l - n) l.

(** Every content of the log is a [str], as [add_message] declares. *)
Definition str_contents (h : list Message) : Prop :=
  Forall (fun m => exists s, content m = VStr s) h.

Definition system_message (p : str) : Message :=
  {| role := pystr "system"; content := VStr p |}.

(** A Unicode scalar value: a code point outside the surrogate range. *)
Definition scalar_value (c : codepoint) : Prop :=
  (c < 0x110000 /\ ~ (0xD800 <= c <= 0xDFFF))%N.

(** What one file adds to [processed_content]. *)
Definition contribution (file : UploadedFile) : list str :=
  match snippet file with
  | Return s => [s]
  | Raise _ => []
  end.

(** What the lines after [if user_input:] show before the request. *)
Definition echo (user_input file_context : str) : list element :=
  st_write (pystr "User: " ++ user_input)
    :: match file_context with
       | [] => []
       | _ :: _ => [st_expander (pystr "Attached Files") [st_text file_context]]
       end.

(** The context log respects the bound and is the end of the display log. *)
Definition logs_consistent (bound : Z) (st : session_state) : Prop :=
  Z.of_nat (length (full_history st)) <= bound /\
  exists older, messages st = older ++ full_history st.

(** The session after a sequence of [add_message] calls with contents of any
    type on one memory, each call taken however it ends. *)
Definition logs_after (self : ChatMemory.t) (calls : list (str * value))
    (st : session_state) : session_state :=
  fold_left (fun st c => fst (ChatMemory.add_message self (fst c) (snd c) st))
            calls st.

(** * Properties *)

(** ** Slices and windows *)

Lemma last_entries_all {A} (n : nat) (l : list A) :
  (length l <= n)%nat -> last_entries n l = l.
Proof.
  intros H. unfold last_entries.
  replace (length l - n)%nat with 0%nat by lia. reflexivity.
Qed.

Lemma last_entries_length {A} (n : nat) (l : list A) :
  length (last_entries n l) = Nat.min n (length l).
Proof. unfold last_entries. rewrite length_skipn. lia. Qed.

Lemma last_entries_suffix {A} (n : nat) (l : list A) :
  firstn (length l - n) l ++ last_entries n l = l.
Proof. apply firstn_skipn. Qed.

Lemma last_entries_app {A} (n : nat) (a b : list A) :
  last_entries n (last_entries n a ++ b) = last_entries n (a ++ b).
Proof.
  destruct (Nat.le_gt_cases (length a) n) as [Hle | Hgt].
  - now rewrite (last_entries_all n a Hle).
  - unfold last_entries at 1 3.
    rewrite !length_app, last_entries_length.
    replace (Nat.min n (length a) + length b - n)%nat with (length b) by lia.
    replace (length a + length b - n)%nat
      with (length b + (length a - n))%nat by lia.
    rewrite <- skipn_skipn. f_equal.
    rewrite skipn_app.
    replace (length a - n - length a)%nat with 0%nat by lia.
    reflexivity.
Qed.

Lemma last_entries_zero {A} (l : list A) : last_entries 0 l = [].
Proof. unfold last_entries. rewrite Nat.sub_0_r. apply skipn_all. Qed.

Lemma slice_from_zero {A} (l : list A) : slice_from (- 0) l = l.
Proof. reflexivity. Qed.

Lemma slice_from_neg {A} (n : Z) (l : list A) :
  0 < n -> slice_from (- n) l = last_entries (Z.to_nat n) l.
Proof.
  intros Hn. unfold slice_from, last_entries.
  destruct (Z.ltb_spec (- n) 0) as [_ | H]; [| lia].
  f_equal. lia.
Qed.

Lemma slice_to_length {A} (j : Z) (l : list A) :
  0 <= j -> Z.of_nat (length (slice_to j l)) <= j.
Proof.
  intros Hj. unfold slice_to.
  destruct (Z.ltb_spec j 0) as [H | _]; [lia |].
  pose proof (firstn_le_length (Z.to_nat j) l). lia.
Qed.

Lemma str_contents_app (a b : list Message) :
  str_contents a -> str_contents b -> str_contents (a ++ b).
Proof. unfold str_contents. intros. apply Forall_app. now split. Qed.

Lemma str_contents_last_entries (n : nat) (h : list Message) :
  str_contents h -> str_contents (last_entries n h).
Proof.
  unfold str_contents, last_entries. intros H.
  rewrite <- (firstn_skipn (length h - n) h) in H.
  now apply Forall_app in H.
Qed.

Lemma str_contents_calls (calls : list call) :
  str_contents (map message_of calls).
Proof.
  induction calls as [| c calls IH]; constructor; [| exact IH].
  now exists (snd c).
Qed.

(** ** ChatMemory *)

Lemma trim_eq (bound : Z) (h : list Message) :
  ChatMemory.trim bound h =
  if Z.of_nat (length h) >? bound then
    match h with
    | [] => ([], Raise IndexError)
    | removed :: rest =>
        match getslice50 (content removed) with
        | Return _ => ChatMemory.trim bound rest
        | Raise e => (rest, Raise e)
        end
    end
  else (h, Return tt).
Proof. destruct h; reflexivity. Qed.

(** With a non-negative bound and string contents the loop ends normally and
    leaves the last [bound] entries. *)
Lemma trim_last_entries (bound : Z) (h : list Message) :
  0 <= bound -> str_contents h ->
  ChatMemory.trim bound h = (last_entries (Z.to_nat bound) h, Return tt).
Proof.
  intros Hb. induction h as [| m h IH]; intros Hs; rewrite trim_eq.
  - rewrite Z.gtb_ltb. destruct (Z.ltb_spec bound (Z.of_nat (length (@nil Message)))) as [H | _].
    + simpl in H. lia.
    + reflexivity.
  - inversion Hs as [| ? ? [s Hm] Hh]; subst.
    rewrite Z.gtb_ltb.
    destruct (Z.ltb_spec bound (Z.of_nat (length (m :: h)))) as [H | H].
    + rewrite Hm. simpl getslice50. rewrite (IH Hh).
      f_equal. unfold last_entries.
      simpl length in *.
      replace (S (length h) - Z.to_nat bound)%nat
        with (S (length h - Z.to_nat bound)) by lia.
      reflexivity.
    + rewrite last_entries_all; [reflexivity |]. lia.
Qed.

(** A negative bound makes the loop pop the empty list. *)
Lemma trim_negative_bound (bound : Z) (h : list Message) :
  bound < 0 -> str_contents h ->
  ChatMemory.trim bound h = ([], Raise IndexError).
Proof.
  intros Hb. induction h as [| m h IH]; intros Hs; rewrite trim_eq;
    rewrite Z.gtb_ltb.
  - destruct (Z.ltb_spec bound (Z.of_nat (length (@nil Message)))) as [_ | H];
      [reflexivity | simpl in H; lia].
  - inversion Hs as [| ? ? [s Hm] Hh]; subst.
    destruct (Z.ltb_spec bound (Z.of_nat (length (m :: h)))) as [_ | H]; [| lia].
    rewrite Hm. simpl getslice50. exact (IH Hh).
Qed.

Lemma add_message_str (self : ChatMemory.t) (r c : str) (st : session_state) :
  0 <= ChatMemory.max_messages self -> str_contents (full_history st) ->
  let m := {| role := r; content := VStr c |} in
  ChatMemory.add_message self r (VStr c) st =
  ({| messages := messages st ++ [m];
      full_history :=
        last_entries (Z.to_nat (ChatMemory.max_messages self))
                     (full_history st ++ [m]) |}, Return tt).
Proof.
  intros Hb Hs m.
  unfold ChatMemory.add_message, bind, modify, ChatMemory.trim_history.
  cbn [messages full_history].
  rewrite trim_last_entries; [reflexivity | exact Hb |].
  apply str_contents_app; [exact Hs |].
  constructor; [now exists c | constructor].
Qed.

Lemma add_messages_str (self : ChatMemory.t) (calls : list call) :
  0 <= ChatMemory.max_messages self ->
  forall st,
    str_contents (full_history st) ->
    (length (full_history st) <= Z.to_nat (ChatMemory.max_messages self))%nat ->
    add_messages self calls st =
    ({| messages := messages st ++ map message_of calls;
        full_history :=
          last_entries (Z.to_nat (ChatMemory.max_messages self))
                       (full_history st ++ map message_of calls) |}, Return tt).
Proof.
  intros Hb. induction calls as [| c calls IH]; intros st Hs Hlen.
  - cbn [add_messages map]. rewrite !app_nil_r.
    rewrite last_entries_all by exact Hlen. now destruct st.
  - cbn [add_messages map]. unfold bind at 1.
    rewrite (add_message_str self (fst c) (snd c) st Hb Hs).
    cbv zeta. rewrite IH; cbn [messages full_history].
    + rewrite last_entries_app, <- !app_assoc. reflexivity.
    + apply str_contents_last_entries, str_contents_app; [exact Hs |].
      constructor; [now exists (snd c) | constructor].
    + rewrite last_entries_length. lia.
Qed.

Lemma add_messages_app (self : ChatMemory.t) (a b : list call) (st : session_state) :
  add_messages self (a ++ b) st =
  match add_messages self a st with
  | (st', Return _) => add_messages self b st'
  | (st', Raise e) => (st', Raise e)
  end.
Proof.
  revert st. induction a as [| c a IH]; intros st.
  - reflexivity.
  - cbn [add_messages app]. unfold bind.
    destruct (ChatMemory.add_message self (fst c) (VStr (snd c)) st) as [st1 [[] | e]].
    + apply IH.
    + reflexivity.
Qed.

(** The slice of [get_context] is the window of the last [max_messages]
    entries when the bound is positive, and also when the log already
    respects the bound. *)
Lemma get_context_window (self : ChatMemory.t) (p : str) (st : session_state) :
  0 < ChatMemory.max_messages self \/
  (0 <= ChatMemory.max_messages self /\
   (length (full_history st) <= Z.to_nat (ChatMemory.max_messages self))%nat) ->
  ChatMemory.get_context self p st =
  system_message p
    :: last_entries (Z.to_nat (ChatMemory.max_messages self)) (full_history st).
Proof.
  intros [Hpos | [Hnn Hlen]]; unfold ChatMemory.get_context; cbn [app]; f_equal.
  - now apply slice_from_neg.
  - rewrite last_entries_all by exact Hlen.
    destruct (Z.eq_dec (ChatMemory.max_messages self) 0) as [E | E].
    + rewrite E. apply slice_from_zero.
    + rewrite slice_from_neg by lia. now apply last_entries_all.
Qed.

(** With a bound of 0 one call is enough to empty the context log, whatever
    the session held before. *)
Lemma zero_bound_after_a_call (c : call) (calls : list call) (p : str)
      (st0 : session_state) :
  str_contents (full_history st0) ->
  let memory := {| ChatMemory.max_messages := 0 |} in
  exists st,
    add_messages memory (c :: calls) st0 = (st, Return tt) /\
    ChatMemory.get_context memory p st = [system_message p].
Proof.
  intros Hs memory. cbn [add_messages]. unfold bind.
  rewrite (add_message_str memory (fst c) (snd c) st0 (Z.le_refl 0) Hs).
  cbv zeta. cbn [ChatMemory.max_messages memory].
  change (Z.to_nat 0) with 0%nat. rewrite last_entries_zero.
  rewrite (add_messages_str memory calls (Z.le_refl 0));
    cbn [full_history messages ChatMemory.max_messages memory].
  - eexists. split; [reflexivity |].
    unfold ChatMemory.get_context. cbn [full_history].
    change (Z.to_nat 0) with 0%nat. now rewrite last_entries_zero.
  - constructor.
  - apply Nat.le_0_l.
Qed.

(** A negative bound makes every call raise IndexError, once the loop has
    emptied the context log. *)
Lemma add_message_negative_bound (self : ChatMemory.t) (r c : str)
      (st : session_state) :
  ChatMemory.max_messages self < 0 -> str_contents (full_history st) ->
  ChatMemory.add_message self r (VStr c) st =
  ({| messages := messages st ++ [{| role := r; content := VStr c |}];
      full_history := [] |}, Raise IndexError).
Proof.
  intros Hb Hs.
  unfold ChatMemory.add_message, bind, modify, ChatMemory.trim_history.
  cbn [messages full_history].
  rewrite trim_negative_bound; [reflexivity | exact Hb |].
  apply str_contents_app; [exact Hs |].
  constructor; [now exists c | constructor].
Qed.

(** C1. On a memory built over a new session with a bound [max_messages >= 0],
    every sequence of [add_message] calls ends normally; after any of the
    calls (that is, after every prefix [calls_before] of the sequence) the
    context log holds at most [max_messages] entries and the display log holds
    as many entries as calls were made. *)
Theorem add_message_log_lengths (bound : Z) (calls_before calls_after : list call) :
  0 <= bound ->
  let (memory, st0) := ChatMemory.init bound None in
  exists st,
    add_messages memory calls_before st0 = (st, Return tt) /\
    add_messages memory (calls_before ++ calls_after) st0 =
      add_messages memory calls_after st /\
    Z.of_nat (length (full_history st)) <= bound /\
    length (messages st) = length calls_before.
Proof.
  intros Hb. cbn [ChatMemory.init ChatMemory.initialize_session].
  set (memory := {| ChatMemory.max_messages := bound |}).
  set (st0 := {| messages := []; full_history := [] |}).
  assert (Hrun := add_messages_str memory calls_before Hb st0).
  cbn [full_history messages st0 app] in Hrun.
  specialize (Hrun (Forall_nil _) (Nat.le_0_l _)).
  eexists. split; [exact Hrun |]. split; [| split].
  - rewrite add_messages_app, Hrun. reflexivity.
  - cbn [full_history]. rewrite last_entries_length.
    cbn [ChatMemory.max_messages memory]. lia.
  - cbn [messages]. apply length_map.
Qed.

Lemma add_message_log_lengths_witness :
  0 <= 2 /\
  exists st,
    add_messages {| ChatMemory.max_messages := 2 |}
      [(pystr "user", pystr "a"); (pystr "assistant", pystr "b");
       (pystr "user", pystr "c")]
      {| messages := []; full_history := [] |} = (st, Return tt) /\
    Z.of_nat (length (full_history st)) <= 2 /\
    length (messages st) = 3%nat.
Proof.
  split; [lia |].
  destruct (add_message_log_lengths 2
              [(pystr "user", pystr "a"); (pystr "assistant", pystr "b");
               (pystr "user", pystr "c")] [] ltac:(lia))
    as [st [Hrun [_ [Hctx Hdisp]]]].
  exists st. repeat split; assumption.
Defined.

(** C6. Eviction is first in, first out: after any sequence of [add_message]
    calls on a new session (bound [max_messages >= 0]) the chronological
    sequence of appended messages splits into the evicted messages followed by
    the context log, so every retained message was appended after every
    evicted one, and the context log is the run of the most recent
    [min(max_messages, number of calls)] messages in order. *)
Theorem eviction_is_fifo (bound : Z) (calls : list call) :
  0 <= bound ->
  let (memory, st0) := ChatMemory.init bound None in
  exists st evicted,
    add_messages memory calls st0 = (st, Return tt) /\
    messages st = map message_of calls /\
    messages st = evicted ++ full_history st /\
    full_history st = last_entries (Z.to_nat bound) (map message_of calls) /\
    length (full_history st) = Nat.min (Z.to_nat bound) (length calls).
Proof.
  intros Hb. cbn [ChatMemory.init ChatMemory.initialize_session].
  set (memory := {| ChatMemory.max_messages := bound |}).
  set (st0 := {| messages := []; full_history := [] |}).
  assert (Hrun := add_messages_str memory calls Hb st0).
  cbn [full_history messages st0 app ChatMemory.max_messages memory] in Hrun.
  specialize (Hrun (Forall_nil _) (Nat.le_0_l _)).
  eexists.
  exists (firstn (length (map message_of calls) - Z.to_nat bound)
                 (map message_of calls)).
  split; [exact Hrun |]. cbn [messages full_history].
  repeat split.
  - symmetry. apply last_entries_suffix.
  - rewrite last_entries_length, length_map. reflexivity.
Qed.

Lemma eviction_is_fifo_witness :
  0 <= 1 /\
  exists st evicted,
    add_messages {| ChatMemory.max_messages := 1 |}
      [(pystr "user", pystr "a"); (pystr "assistant", pystr "b")]
      {| messages := []; full_history := [] |} = (st, Return tt) /\
    messages st = evicted ++ full_history st /\
    length (full_history st) = 1%nat.
Proof.
  split; [lia |].
  destruct (eviction_is_fifo 1
              [(pystr "user", pystr "a"); (pystr "assistant", pystr "b")]
              ltac:(lia))
    as [st [evicted [Hrun [_ [Hsplit [_ Hlen]]]]]].
  exists st, evicted. repeat split; assumption.
Defined.

(** C7. A memory constructed with [max_messages = 0] over a new session:
    after any sequence of [add_message] calls, [get_context(p)] is the system
    message alone. (The slice [full_history[-0:]] is the whole context log;
    the log is empty because [add_message] has trimmed it.) *)
Theorem zero_bound_context_is_system_message (calls : list call) (p : str) :
  let (memory, st0) := ChatMemory.init 0 None in
  exists st,
    add_messages memory calls st0 = (st, Return tt) /\
    ChatMemory.get_context memory p st =
      [{| role := pystr "system"; content := VStr p |}].
Proof.
  cbn [ChatMemory.init ChatMemory.initialize_session].
  set (memory := {| ChatMemory.max_messages := 0 |}).
  set (st0 := {| messages := []; full_history := [] |}).
  assert (Hrun := add_messages_str memory calls (Z.le_refl 0) st0).
  cbn [full_history messages st0 app ChatMemory.max_messages memory] in Hrun.
  specialize (Hrun (Forall_nil _) (Nat.le_0_l _)).
  eexists. split; [exact Hrun |].
  unfold ChatMemory.get_context. cbn [full_history].
  change (Z.to_nat 0) with 0%nat. rewrite last_entries_zero. reflexivity.
Qed.

(** The slice alone does not cut at a bound of 0: [full_history[-0:]] is the
    whole list. Such a state (bound 0 over a log that holds a message) is not
    one a memory with a fixed bound reaches, since [add_message] trims on
    every call. *)
Lemma get_context_zero_bound_keeps_log :
  let memory := {| ChatMemory.max_messages := 0 |} in
  let m := {| role := pystr "user"; content := VStr (pystr "hi") |} in
  let st := {| messages := [m]; full_history := [m] |} in
  ChatMemory.get_context memory (pystr "p") st = [system_message (pystr "p"); m] /\
  ChatMemory.get_context memory (pystr "p") st <>
    system_message (pystr "p")
      :: last_entries (Z.to_nat (ChatMemory.max_messages memory)) (full_history st).
Proof.
  cbv zeta. split; [reflexivity | discriminate].
Qed.

(** ** Attachments *)

Lemma process_files_contributions (files : list UploadedFile) (acc : list str) :
  process_files files acc = acc ++ flat_map contribution files.
Proof.
  revert acc. induction files as [| f files IH]; intros acc; cbn [process_files flat_map].
  - now rewrite app_nil_r.
  - unfold contribution at 1. destruct (snippet f) as [s | e]; rewrite IH.
    + now rewrite <- app_assoc.
    + reflexivity.
Qed.

Lemma slice_to_MAX_FILE_CONTENT {A} (l : list A) :
  slice_to MAX_FILE_CONTENT l = firstn (Z.to_nat MAX_FILE_CONTENT) l.
Proof. reflexivity. Qed.

Lemma page_texts_returning (texts : list (option str)) :
  page_texts (map (fun t => {| extract_text := Return t |}) texts) =
  Return (map or_empty texts).
Proof.
  induction texts as [| t texts IH]; cbn [map page_texts extract_text obind].
  - reflexivity.
  - now rewrite IH.
Qed.

Lemma page_texts_raising (before : list (option str)) (e : exception)
      (after : list page) :
  page_texts (map (fun t => {| extract_text := Return t |}) before
                ++ {| extract_text := Raise e |} :: after) = Raise e.
Proof.
  induction before as [| t before IH]; cbn [map app page_texts extract_text obind].
  - reflexivity.
  - now rewrite IH.
Qed.

(** C8. A single file of a type other than PDF whose bytes can be read gives
    "FILE_CONTENT:" + name + ": " + the first MAX_FILE_CONTENT characters of
    the decoded bytes + "..."; the file a.txt with bytes b"hello" gives
    "FILE_CONTENT:a.txt: hello..."; and in every snippet, of either kind, the
    text between the name and the ellipsis has at most MAX_FILE_CONTENT
    characters. *)
Theorem plain_file_snippet :
  (forall (file : UploadedFile) (data : list byte),
      str_eqb (type file) (pystr "application/pdf") = false ->
      read file = Return data ->
      process_uploaded_files [file] =
        pystr "FILE_CONTENT:" ++ name file ++ pystr ": "
          ++ firstn (Z.to_nat MAX_FILE_CONTENT) (decode data) ++ pystr "...") /\
  (forall pdf : outcome (list page),
      process_uploaded_files
        [{| name := pystr "a.txt"; type := pystr "plain";
            read := Return [x68; x65; x6c; x6c; x6f]; PdfReader := pdf |}] =
        pystr "FILE_CONTENT:a.txt: hello...") /\
  (forall (file : UploadedFile) (s : str),
      snippet file = Return s ->
      exists prefix text : str,
        s = prefix ++ name file ++ pystr ": " ++ text ++ pystr "..." /\
        (prefix = pystr "FILE_CONTENT:" \/ prefix = pystr "PDF_CONTENT:") /\
        Z.of_nat (length text) <= MAX_FILE_CONTENT).
Proof.
  split; [| split].
  - intros file data Htype Hread.
    unfold process_uploaded_files. cbn [process_files].
    unfold snippet. rewrite Htype, Hread. cbn [obind app process_files join flat_map].
    rewrite slice_to_MAX_FILE_CONTENT, app_nil_r. reflexivity.
  - intros pdf. vm_compute. reflexivity.
  - intros file s. unfold snippet.
    destruct (str_eqb (type file) (pystr "application/pdf")).
    + destruct (PdfReader file) as [pages | e]; [| discriminate].
      cbn [obind]. destruct (page_texts pages) as [texts | e]; [| discriminate].
      cbn [obind]. intros [= <-].
      exists (pystr "PDF_CONTENT:"), (slice_to MAX_FILE_CONTENT (join (pystr " ") texts)).
      split; [reflexivity | split; [now right |]].
      apply slice_to_length. discriminate.
    + destruct (read file) as [data | e]; [| discriminate].
      cbn [obind]. intros [= <-].
      exists (pystr "FILE_CONTENT:"), (slice_to MAX_FILE_CONTENT (decode data)).
      split; [reflexivity | split; [now left |]].
      apply slice_to_length. discriminate.
Qed.

Lemma plain_file_snippet_witness :
  process_uploaded_files
    [{| name := pystr "n"; type := pystr "text/plain";
        read := Return [xe2; x82; xac; xff];
        PdfReader := Raise (Exception (pystr "not a PDF")) |}] =
  pystr "FILE_CONTENT:n: " ++ [0x20AC; 0xFFFD]%N ++ pystr "...".
Proof.
  exact (proj1 plain_file_snippet
           {| name := pystr "n"; type := pystr "text/plain";
              read := Return [xe2; x82; xac; xff];
              PdfReader := Raise (Exception (pystr "not a PDF")) |}
           [xe2; x82; xac; xff] eq_refl eq_refl).
Defined.

(** C10. Every snippet that is produced, for a PDF as for any other file,
    ends with "...", whatever the length of the extracted text. *)
Theorem snippet_ends_with_ellipsis (file : UploadedFile) (s : str) :
  snippet file = Return s ->
  exists body : str, s = body ++ pystr "...".
Proof.
  unfold snippet.
  destruct (str_eqb (type file) (pystr "application/pdf")).
  - destruct (PdfReader file) as [pages | e]; [| discriminate].
    cbn [obind]. destruct (page_texts pages) as [texts | e]; [| discriminate].
    cbn [obind]. intros [= <-].
    exists (pystr "PDF_CONTENT:" ++ name file ++ pystr ": "
              ++ slice_to MAX_FILE_CONTENT (join (pystr " ") texts)).
    now rewrite <- !app_assoc.
  - destruct (read file) as [data | e]; [| discriminate].
    cbn [obind]. intros [= <-].
    exists (pystr "FILE_CONTENT:" ++ name file ++ pystr ": "
              ++ slice_to MAX_FILE_CONTENT (decode data)).
    now rewrite <- !app_assoc.
Qed.

Lemma snippet_ends_with_ellipsis_witness :
  exists body : str,
    pystr "PDF_CONTENT:s.pdf: a b..." = body ++ pystr "...".
Proof.
  exact (snippet_ends_with_ellipsis
           {| name := pystr "s.pdf"; type := pystr "application/pdf";
              read := Return [];
              PdfReader := Return [ {| extract_text := Return (Some (pystr "a")) |};
                                    {| extract_text := Return (Some (pystr "b")) |} ] |}
           (pystr "PDF_CONTENT:s.pdf: a b...") eq_refl).
Defined.

(** C9 as stated fails when extracting a page raises: the PDF below has one
    readable page and one page whose extraction raises, and contributes no
    snippet at all. *)
Lemma raising_page_drops_pdf :
  let file :=
    {| name := pystr "a.pdf"; type := pystr "application/pdf";
       read := Return [];
       PdfReader :=
         Return [ {| extract_text := Return (Some (pystr "ok")) |};
                  {| extract_text := Raise (Exception (pystr "unreadable")) |} ] |} in
  (~ exists s, snippet file = Return s) /\
  process_uploaded_files [file] = [].
Proof.
  cbv zeta. split.
  - intros [s Hs]. vm_compute in Hs. discriminate.
  - vm_compute. reflexivity.
Qed.

(** C9, amended. For a PDF file: when every page's extraction returns (a text,
    an empty text or nothing), the file gives the snippet "PDF_CONTENT:" + name
    + ": " + the first MAX_FILE_CONTENT characters of the page texts joined by
    one space + "...", a page without text contributing the empty text; when
    extracting some page raises, the file contributes no snippet, and the
    other files of the batch are processed as if it were not there. *)
Theorem pdf_pages_snippet (file : UploadedFile)
    (files_before files_after : list UploadedFile) :
  str_eqb (type file) (pystr "application/pdf") = true ->
  (forall texts : list (option str),
      PdfReader file = Return (map (fun t => {| extract_text := Return t |}) texts) ->
      snippet file =
        Return (pystr "PDF_CONTENT:" ++ name file ++ pystr ": "
                  ++ firstn (Z.to_nat MAX_FILE_CONTENT)
                            (join (pystr " ") (map or_empty texts))
                  ++ pystr "...")) /\
  (forall (texts : list (option str)) (e : exception) (rest : list page),
      PdfReader file =
        Return (map (fun t => {| extract_text := Return t |}) texts
                  ++ {| extract_text := Raise e |} :: rest) ->
      snippet file = Raise e /\
      process_uploaded_files (files_before ++ file :: files_after) =
        process_uploaded_files (files_before ++ files_after)).
Proof.
  intros Htype. split.
  - intros texts Hpdf. unfold snippet.
    rewrite Htype, Hpdf. cbn [obind]. rewrite page_texts_returning.
    reflexivity.
  - intros texts e rest Hpdf.
    assert (Hs : snippet file = Raise e).
    { unfold snippet. rewrite Htype, Hpdf. cbn [obind].
      now rewrite page_texts_raising. }
    split; [exact Hs |].
    unfold process_uploaded_files.
    rewrite !process_files_contributions. cbn [app].
    rewrite !flat_map_app. cbn [flat_map].
    unfold contribution at 2. rewrite Hs. reflexivity.
Qed.

Lemma pdf_pages_snippet_witness :
  snippet {| name := pystr "s.pdf"; type := pystr "application/pdf";
             read := Return [];
             PdfReader := Return [ {| extract_text := Return (Some (pystr "a")) |};
                                   {| extract_text := Return None |};
                                   {| extract_text := Return (Some (pystr "b")) |} ] |} =
  Return (pystr "PDF_CONTENT:s.pdf: a  b...").
Proof.
  exact (proj1 (pdf_pages_snippet
                  {| name := pystr "s.pdf"; type := pystr "application/pdf";
                     read := Return [];
                     PdfReader := Return [ {| extract_text := Return (Some (pystr "a")) |};
                                           {| extract_text := Return None |};
                                           {| extract_text := Return (Some (pystr "b")) |} ] |}
                  [] [] eq_refl)
               [Some (pystr "a"); None; Some (pystr "b")] eq_refl).
Defined.

(** ** The completion request *)

(** Where a key of the path is absent from a dict the defaults apply and the
    extracted content is the empty string. *)
Lemma extract_content_missing_key (d : list (str * value)) :
  lookup (pystr "choices") d = None \/
  (exists c rest,
      lookup (pystr "choices") d = Some (VList (VDict c :: rest)) /\
      (lookup (pystr "message") c = None \/
       exists m, lookup (pystr "message") c = Some (VDict m) /\
                 lookup (pystr "content") m = None)) ->
  extract_content (VDict d) = Return (VStr []).
Proof.
  unfold extract_content.
  intros [H | [c [rest [H [Hm | [m [Hm Hc]]]]]]]; cbn [get obind]; rewrite H;
    cbn [getitem0 get obind].
  - reflexivity.
  - now rewrite Hm.
  - rewrite Hm. cbn [get]. now rewrite Hc.
Qed.

(** C3, at the response body [{"choices": []}]: the first element of
    [choices] is missing, the subscript [[0]] raises IndexError instead of the
    content defaulting to the empty string, and since the handler only
    catches RequestException the error leaves [query_deepseek]. *)
Theorem empty_choices_raises_IndexError :
  let response_data := VDict [(pystr "choices", VList [])] in
  extract_content response_data = Raise IndexError /\
  forall (st : session_state) (key prompt system_prompt model : str)
         (memory : ChatMemory.t),
    query_deepseek (float := unit)
      (fun _ => Return {| status_code := 200;
                          response_json := Return response_data |})
      (Some key) prompt system_prompt memory model tt st
    = (st, Raise IndexError).
Proof.
  cbv zeta. split; reflexivity.
Qed.

(** C4. Whenever the transport fails, by [requests.post] raising a
    RequestException (connection error, timeout) or by a response whose
    status is not 2xx, [query_deepseek] returns None without raising and the
    session's two logs are exactly as before the call. *)
Theorem transport_failure_returns_None (float : Type)
    (requests_post : request float -> outcome response)
    (key prompt system_prompt model : str) (memory : ChatMemory.t)
    (temperature : float) (st : session_state) :
  (exists descr,
      requests_post (build_request key prompt system_prompt memory model
                                   temperature st)
      = Raise (RequestException descr)) \/
  (exists r,
      requests_post (build_request key prompt system_prompt memory model
                                   temperature st)
      = Return r /\ ~ (200 <= status_code r < 300)) ->
  query_deepseek requests_post (Some key) prompt system_prompt memory model
                 temperature st
  = (st, Return None).
Proof.
  intros H.
  unfold query_deepseek, try_except_RequestException, bind, lift, ret.
  destruct H as [[descr H] | [r [H Hstatus]]]; rewrite H.
  - reflexivity.
  - unfold raise_for_status.
    destruct ((400 <=? status_code r) && (status_code r <? 600)).
    + reflexivity.
    + destruct (Z.eqb_spec (status_code r) 200) as [E | _]; [lia | reflexivity].
Qed.

Lemma transport_failure_returns_None_witness :
  query_deepseek (float := Q)
    (fun _ => Return {| status_code := 503;
                        response_json := Raise (RequestException (pystr "JSONDecodeError")) |})
    (Some (pystr "sk-1")) (pystr "hello") (pystr "be brief")
    {| ChatMemory.max_messages := MAX_CONTEXT_MESSAGES |} (pystr "deepseek-chat")
    (7 # 10)%Q
    {| messages := [message_of (pystr "user", pystr "a")];
       full_history := [message_of (pystr "user", pystr "a")] |}
  = ({| messages := [message_of (pystr "user", pystr "a")];
        full_history := [message_of (pystr "user", pystr "a")] |}, Return None).
Proof.
  apply (transport_failure_returns_None Q).
  right. eexists. split; [reflexivity |]. cbn [status_code]. lia.
Defined.



(** * Further properties *)

(** ** ChatMemory, for any content and any bound *)

Lemma trim_is_suffix (bound : Z) (h : list Message) :
  exists evicted, h = evicted ++ fst (ChatMemory.trim bound h).
Proof.
  induction h as [| m h [ev IH]]; rewrite trim_eq.
  - exists []. now destruct (_ >? _).
  - destruct (_ >? _); [| now exists []].
    destruct (getslice50 (content m)).
    + exists (m :: ev). cbn [app]. now rewrite <- IH.
    + now exists [m].
Qed.

Lemma trim_within_bound (bound : Z) (h : list Message) :
  Z.of_nat (length h) <= bound -> ChatMemory.trim bound h = (h, Return tt).
Proof.
  intros H. rewrite trim_eq, Z.gtb_ltb.
  destruct (Z.ltb_spec bound (Z.of_nat (length h))); [lia | reflexivity].
Qed.

Lemma trim_one_over (bound : Z) (oldest : Message) (rest : list Message) :
  Z.of_nat (length rest) = bound ->
  ChatMemory.trim bound (oldest :: rest) =
  (rest, match getslice50 (content oldest) with
         | Return _ => Return tt
         | Raise e => Raise e
         end).
Proof.
  intros H. rewrite trim_eq, Z.gtb_ltb.
  destruct (Z.ltb_spec bound (Z.of_nat (length (oldest :: rest)))) as [_ | H'].
  - destruct (getslice50 (content oldest)); [| reflexivity].
    apply trim_within_bound. lia.
  - cbn [length] in H'. lia.
Qed.

Lemma add_message_unfold (self : ChatMemory.t) (r : str) (c : value)
      (st : session_state) :
  ChatMemory.add_message self r c st =
  let m := {| role := r; content := c |} in
  ({| messages := messages st ++ [m];
      full_history :=
        fst (ChatMemory.trim (ChatMemory.max_messages self)
                             (full_history st ++ [m])) |},
   snd (ChatMemory.trim (ChatMemory.max_messages self)
                        (full_history st ++ [m]))).
Proof.
  unfold ChatMemory.add_message, bind, modify, ChatMemory.trim_history.
  cbn [messages full_history].
  now destruct (ChatMemory.trim _ _).
Qed.

(** X1. Whatever the bound, the content and the way the call ends (it may
    raise), [add_message] appends exactly the new message to the display log,
    and the context log afterwards is what is left of the old context log
    followed by the new message once some of its oldest entries are removed:
    nothing is reordered and nothing but a front run is dropped. *)
Theorem add_message_appends_and_evicts_front (self : ChatMemory.t) (r : str)
    (c : value) (st : session_state) :
  let m := {| role := r; content := c |} in
  let st' := fst (ChatMemory.add_message self r c st) in
  messages st' = messages st ++ [m] /\
  exists evicted, full_history st ++ [m] = evicted ++ full_history st'.
Proof.
  cbv zeta. rewrite add_message_unfold. cbv zeta. cbn [fst messages full_history].
  split; [reflexivity |]. apply trim_is_suffix.
Qed.

(** X2. While the context log holds fewer than [max_messages] entries,
    [add_message] ends normally for any content, appends the message to both
    logs and evicts nothing. *)
Theorem add_message_below_bound (self : ChatMemory.t) (r : str) (c : value)
    (st : session_state) :
  Z.of_nat (length (full_history st)) < ChatMemory.max_messages self ->
  let m := {| role := r; content := c |} in
  ChatMemory.add_message self r c st =
  ({| messages := messages st ++ [m]; full_history := full_history st ++ [m] |},
   Return tt).
Proof.
  intros H m. rewrite add_message_unfold. cbv zeta.
  rewrite trim_within_bound; [reflexivity |].
  rewrite length_app. cbn [length]. lia.
Qed.

Lemma add_message_below_bound_witness :
  ChatMemory.add_message {| ChatMemory.max_messages := 1 |}
    (pystr "assistant") VNone {| messages := []; full_history := [] |} =
  ({| messages := [{| role := pystr "assistant"; content := VNone |}];
      full_history := [{| role := pystr "assistant"; content := VNone |}] |},
   Return tt).
Proof.
  apply (add_message_below_bound {| ChatMemory.max_messages := 1 |}
           (pystr "assistant") VNone {| messages := []; full_history := [] |}).
  cbn. lia.
Defined.

(** X3. When the context log is full (it holds exactly [max_messages]
    entries, the oldest first), [add_message] removes the oldest entry and
    appends the new message. The call ends normally when the content of the
    removed entry can be sliced (a string or a list); otherwise it raises
    what the slice in the debug line raises (TypeError for None, a boolean or
    a number), with both logs already updated. *)
Theorem add_message_at_bound (self : ChatMemory.t) (r : str) (c : value)
    (st : session_state) (oldest : Message) (rest : list Message) :
  full_history st = oldest :: rest ->
  Z.of_nat (length (full_history st)) = ChatMemory.max_messages self ->
  let m := {| role := r; content := c |} in
  ChatMemory.add_message self r c st =
  ({| messages := messages st ++ [m]; full_history := rest ++ [m] |},
   match getslice50 (content oldest) with
   | Return _ => Return tt
   | Raise e => Raise e
   end) /\
  (content oldest = VNone \/ (exists b, content oldest = VBool b) \/
   (exists n, content oldest = VInt n) \/ (exists q, content oldest = VFloat q) ->
   snd (ChatMemory.add_message self r c st) = Raise TypeError).
Proof.
  intros Hh Hlen m. rewrite add_message_unfold. cbv zeta.
  rewrite Hh in *. cbn [app].
  rewrite trim_one_over.
  - cbn [fst snd]. split; [reflexivity |].
    intros [-> | [[b ->] | [[n ->] | [q ->]]]]; reflexivity.
  - rewrite length_app. cbn [length] in *. lia.
Qed.

Lemma add_message_at_bound_witness :
  ChatMemory.add_message {| ChatMemory.max_messages := 1 |}
    (pystr "user") (VStr (pystr "next"))
    {| messages := [{| role := pystr "assistant"; content := VNone |}];
       full_history := [{| role := pystr "assistant"; content := VNone |}] |} =
  ({| messages := [{| role := pystr "assistant"; content := VNone |};
                   {| role := pystr "user"; content := VStr (pystr "next") |}];
      full_history := [{| role := pystr "user"; content := VStr (pystr "next") |}] |},
   Raise TypeError).
Proof.
  apply (proj1 (add_message_at_bound {| ChatMemory.max_messages := 1 |}
           (pystr "user") (VStr (pystr "next"))
           {| messages := [{| role := pystr "assistant"; content := VNone |}];
              full_history := [{| role := pystr "assistant"; content := VNone |}] |}
           {| role := pystr "assistant"; content := VNone |} [] eq_refl eq_refl)).
Defined.

(** X4. With a negative [max_messages] every [add_message] of a string onto
    a context log of strings raises IndexError: the loop empties the context
    log and then pops the empty list. The message stays in the display log. *)
Theorem negative_bound_raises_IndexError (self : ChatMemory.t) (r c : str)
    (st : session_state) :
  ChatMemory.max_messages self < 0 -> str_contents (full_history st) ->
  ChatMemory.add_message self r (VStr c) st =
  ({| messages := messages st ++ [{| role := r; content := VStr c |}];
      full_history := [] |}, Raise IndexError).
Proof.
  intros Hb Hs. rewrite add_message_unfold. cbv zeta.
  rewrite trim_negative_bound; [reflexivity | exact Hb |].
  apply str_contents_app; [exact Hs |].
  constructor; [now exists c | constructor].
Qed.

Lemma negative_bound_raises_IndexError_witness :
  ChatMemory.add_message {| ChatMemory.max_messages := -1 |}
    (pystr "user") (VStr (pystr "a")) {| messages := []; full_history := [] |} =
  ({| messages := [{| role := pystr "user"; content := VStr (pystr "a") |}];
      full_history := [] |}, Raise IndexError).
Proof.
  apply (negative_bound_raises_IndexError {| ChatMemory.max_messages := -1 |}
           (pystr "user") (pystr "a") {| messages := []; full_history := [] |}).
  - cbn. lia.
  - constructor.
Defined.

Lemma slice_from_nil {A} (i : Z) : slice_from i (@nil A) = [].
Proof. unfold slice_from. destruct (i <? 0); apply skipn_nil. Qed.

(** X5. After [clear_memory], whatever the logs held and whatever the bound
    (zero and negative included), both logs are empty, [get_context(p)] is
    the system message alone, and clearing again changes nothing. *)
Theorem clear_memory_resets (self : ChatMemory.t) (p : str) (st : session_state) :
  let st' := fst (ChatMemory.clear_memory st) in
  ChatMemory.clear_memory st = (st', Return tt) /\
  st' = ChatMemory.initialize_session None /\
  ChatMemory.get_context self p st' =
    [{| role := pystr "system"; content := VStr p |}] /\
  ChatMemory.clear_memory st' = (st', Return tt).
Proof.
  cbv zeta. unfold ChatMemory.clear_memory, modify. cbn [fst].
  repeat split.
  unfold ChatMemory.get_context. cbn [full_history].
  now rewrite slice_from_nil.
Qed.

(** X6. With a bound [max_messages >= 1], the request of a call carries, in
    this order, the system message, the last [max_messages] entries of the
    context log and the user message with the prompt; so it has at most
    [max_messages + 2] messages, whatever the context log holds. *)
Theorem request_messages_window (float : Type)
    (key prompt system_prompt model : str) (memory : ChatMemory.t)
    (temperature : float) (st : session_state) :
  1 <= ChatMemory.max_messages memory ->
  let sent := payload_messages float
                (json float (build_request key prompt system_prompt memory
                                           model temperature st)) in
  sent = {| role := pystr "system"; content := VStr system_prompt |}
           :: last_entries (Z.to_nat (ChatMemory.max_messages memory))
                           (full_history st)
           ++ [{| role := pystr "user"; content := VStr prompt |}] /\
  Z.of_nat (length sent) <= ChatMemory.max_messages memory + 2.
Proof.
  intros Hb sent. subst sent. unfold build_request. cbn [json payload_messages].
  rewrite get_context_window by (left; lia).
  split; [reflexivity |].
  cbn [length app]. rewrite length_app, last_entries_length. cbn [length]. lia.
Qed.

Lemma request_messages_window_witness :
  Z.of_nat (length (payload_messages unit
     (json unit (build_request (pystr "k") (pystr "q") (pystr "s")
                   {| ChatMemory.max_messages := 1 |} (pystr "m") tt
                   {| messages := [message_of (pystr "user", pystr "a");
                                   message_of (pystr "assistant", pystr "b")];
                      full_history := [message_of (pystr "user", pystr "a");
                                       message_of (pystr "assistant", pystr "b")] |}))))
  <= 1 + 2.
Proof.
  apply (request_messages_window unit (pystr "k") (pystr "q") (pystr "s")
           (pystr "m") {| ChatMemory.max_messages := 1 |} tt).
  cbn. lia.
Defined.

(** ** Attachments: decoding and batches *)

Ltac split_bools :=
  repeat match goal with
         | H : (_ && _)%bool = true |- _ => apply andb_prop in H; destruct H
         | H : (_ <=? _)%N = true |- _ => apply N.leb_le in H
         | H : (_ <? _)%N = true |- _ => apply N.ltb_lt in H
         | H : (_ <? _)%N = false |- _ => apply N.ltb_ge in H
         | H : (_ =? _)%N = true |- _ => apply N.eqb_eq in H
         | H : (_ =? _)%N = false |- _ => apply N.eqb_neq in H
         end.

(** One step of the decoder: a first code point, which is a scalar value, and
    decoding goes on after at least the first byte. *)
Lemma decode_cons (x0 : byte) (r0 : list byte) :
  exists (c : codepoint) (skipped rest : list byte),
    decode (x0 :: r0) = c :: decode rest /\
    r0 = skipped ++ rest /\
    scalar_value c.
Proof.
  assert (Hrepl : scalar_value REPLACEMENT_CHARACTER)
    by (unfold scalar_value, REPLACEMENT_CHARACTER; lia).
  cbn [decode]. cbv zeta.
  destruct (Byte.to_N x0 <? 128)%N eqn:H0.
  { exists (Byte.to_N x0), [], r0. split_bools.
    repeat split; unfold scalar_value; lia. }
  destruct ((194 <=? Byte.to_N x0)%N && (Byte.to_N x0 <=? 223)%N)%bool eqn:H2.
  { destruct r0 as [| x1 r1]; [now exists REPLACEMENT_CHARACTER, [], [] |].
    destruct (continuation (Byte.to_N x1)) eqn:C1;
      [| now exists REPLACEMENT_CHARACTER, [], (x1 :: r1)].
    eexists _, [x1], r1. repeat split.
    all: unfold continuation in *; split_bools; lia. }
  destruct ((224 <=? Byte.to_N x0)%N && (Byte.to_N x0 <=? 239)%N)%bool eqn:H3.
  { destruct r0 as [| x1 r1]; [now exists REPLACEMENT_CHARACTER, [], [] |].
    destruct (second_byte (Byte.to_N x0) (Byte.to_N x1)) eqn:C1;
      [| now exists REPLACEMENT_CHARACTER, [], (x1 :: r1)].
    destruct r1 as [| x2 r2]; [now exists REPLACEMENT_CHARACTER, [x1], [] |].
    destruct (continuation (Byte.to_N x2)) eqn:C2;
      [| now exists REPLACEMENT_CHARACTER, [x1], (x2 :: r2)].
    eexists _, [x1; x2], r2. repeat split.
    all: unfold second_byte, continuation in *;
      repeat match type of C1 with
             | (if ?b then _ else _) = true => destruct b eqn:?
             end;
      split_bools; lia. }
  destruct ((240 <=? Byte.to_N x0)%N && (Byte.to_N x0 <=? 244)%N)%bool eqn:H4.
  { destruct r0 as [| x1 r1]; [now exists REPLACEMENT_CHARACTER, [], [] |].
    destruct (second_byte (Byte.to_N x0) (Byte.to_N x1)) eqn:C1;
      [| now exists REPLACEMENT_CHARACTER, [], (x1 :: r1)].
    destruct r1 as [| x2 r2]; [now exists REPLACEMENT_CHARACTER, [x1], [] |].
    destruct (continuation (Byte.to_N x2)) eqn:C2;
      [| now exists REPLACEMENT_CHARACTER, [x1], (x2 :: r2)].
    destruct r2 as [| x3 r3]; [now exists REPLACEMENT_CHARACTER, [x1; x2], [] |].
    destruct (continuation (Byte.to_N x3)) eqn:C3;
      [| now exists REPLACEMENT_CHARACTER, [x1; x2], (x3 :: r3)].
    eexists _, [x1; x2; x3], r3. repeat split.
    all: unfold second_byte, continuation in *;
      repeat match type of C1 with
             | (if ?b then _ else _) = true => destruct b eqn:?
             end;
      split_bools; lia. }
  now exists REPLACEMENT_CHARACTER, [], r0.
Qed.

Lemma decode_facts (n : nat) :
  forall bs : list byte,
    (length bs <= n)%nat ->
    (length (decode bs) <= length bs)%nat /\ Forall scalar_value (decode bs).
Proof.
  induction n as [| n IH]; intros [| x0 r0] Hlen; cbn [length] in Hlen;
    try (split; [apply Nat.le_refl | constructor]); try lia.
  destruct (decode_cons x0 r0) as [c [skipped [rest [Heq [Hr0 Hc]]]]].
  assert (Hrest : (length rest <= n)%nat).
  { rewrite Hr0, length_app in Hlen. lia. }
  destruct (IH rest Hrest) as [IHlen IHsc].
  rewrite Heq. split.
  - cbn [length]. rewrite Hr0, length_app. lia.
  - now constructor.
Qed.

Lemma decode_ascii (bs : list byte) :
  Forall (fun b => (Byte.to_N b < 0x80)%N) bs -> decode bs = map Byte.to_N bs.
Proof.
  induction 1 as [| x r Hx _ IH]; [reflexivity |].
  cbn [decode map]. cbv zeta.
  apply N.ltb_lt in Hx. rewrite Hx. now rewrite IH.
Qed.

Lemma slice_to_MAX_length {A} (l : list A) :
  (length (slice_to MAX_FILE_CONTENT l) <= Z.to_nat MAX_FILE_CONTENT)%nat /\
  (length (slice_to MAX_FILE_CONTENT l) <= length l)%nat.
Proof.
  rewrite slice_to_MAX_FILE_CONTENT, length_firstn. lia.
Qed.

(** X7. For a file of a type other than PDF whose bytes can be read, whatever
    the bytes are (well-formed UTF-8 or not), the snippet is produced, and the
    text between the name and the ellipsis has at most as many characters as
    the file has bytes, at most MAX_FILE_CONTENT, and holds only Unicode
    scalar values (no surrogate, nothing above U+10FFFF). *)
Theorem plain_snippet_text (file : UploadedFile) (data : list byte) :
  str_eqb (type file) (pystr "application/pdf") = false ->
  read file = Return data ->
  exists text : str,
    snippet file =
      Return (pystr "FILE_CONTENT:" ++ name file ++ pystr ": " ++ text
                ++ pystr "...") /\
    (length text <= length data)%nat /\
    Z.of_nat (length text) <= MAX_FILE_CONTENT /\
    Forall scalar_value text.
Proof.
  intros Htype Hread.
  exists (slice_to MAX_FILE_CONTENT (decode data)).
  destruct (decode_facts (length data) data (Nat.le_refl _)) as [Hlen Hsc].
  destruct (slice_to_MAX_length (decode data)) as [H1 H2].
  repeat split.
  - unfold snippet. now rewrite Htype, Hread.
  - lia.
  - change MAX_FILE_CONTENT with 1000 in *. lia.
  - rewrite slice_to_MAX_FILE_CONTENT.
    rewrite <- (firstn_skipn (Z.to_nat MAX_FILE_CONTENT) (decode data)) in Hsc.
    now apply Forall_app in Hsc.
Qed.

Lemma plain_snippet_text_witness :
  exists text : str,
    snippet {| name := pystr "n"; type := pystr "text/plain";
               read := Return [xc3; x28; xf0];
               PdfReader := Raise (Exception []) |} =
      Return (pystr "FILE_CONTENT:" ++ pystr "n" ++ pystr ": " ++ text
                ++ pystr "...") /\
    (length text <= 3)%nat.
Proof.
  destruct (plain_snippet_text
              {| name := pystr "n"; type := pystr "text/plain";
                 read := Return [xc3; x28; xf0];
                 PdfReader := Raise (Exception []) |}
              [xc3; x28; xf0] eq_refl eq_refl) as [text [H1 [H2 _]]].
  exists text. split; assumption.
Defined.

(** X8. A file of a type other than PDF that holds at most MAX_FILE_CONTENT
    bytes, all of them ASCII, is quoted in full: the snippet is
    "FILE_CONTENT:" + name + ": " + the bytes as characters + "...". *)
Theorem short_ascii_file_in_full (file : UploadedFile) (data : list byte) :
  str_eqb (type file) (pystr "application/pdf") = false ->
  read file = Return data ->
  Forall (fun b => (Byte.to_N b < 0x80)%N) data ->
  Z.of_nat (length data) <= MAX_FILE_CONTENT ->
  process_uploaded_files [file] =
    pystr "FILE_CONTENT:" ++ name file ++ pystr ": " ++ map Byte.to_N data
      ++ pystr "...".
Proof.
  intros Htype Hread Hascii Hlen.
  unfold process_uploaded_files. cbn [process_files].
  unfold snippet. rewrite Htype, Hread. cbn [obind app process_files join flat_map].
  rewrite app_nil_r, slice_to_MAX_FILE_CONTENT, (decode_ascii data Hascii).
  rewrite firstn_all2; [reflexivity |].
  rewrite length_map. lia.
Qed.

Lemma short_ascii_file_in_full_witness :
  process_uploaded_files
    [{| name := pystr "a.txt"; type := []; read := Return [x68; x69];
        PdfReader := Raise (Exception []) |}] =
  pystr "FILE_CONTENT:a.txt: hi...".
Proof.
  apply (short_ascii_file_in_full
           {| name := pystr "a.txt"; type := []; read := Return [x68; x69];
              PdfReader := Raise (Exception []) |} [x68; x69]).
  - reflexivity.
  - reflexivity.
  - repeat constructor.
  - unfold MAX_FILE_CONTENT. cbn. lia.
Defined.

(** X9. A snippet, of either kind, is never longer than the file's name plus
    1018 characters (the label, the separator, MAX_FILE_CONTENT characters of
    text and the ellipsis). *)
Theorem snippet_length_bound (file : UploadedFile) (s : str) :
  snippet file = Return s ->
  (length s <= length (name file) + 1018)%nat.
Proof.
  unfold snippet.
  destruct (str_eqb (type file) (pystr "application/pdf")).
  - destruct (PdfReader file) as [pages | e]; [| discriminate].
    cbn [obind]. destruct (page_texts pages) as [texts | e]; [| discriminate].
    cbn [obind]. intros Hs.
    assert (E : s = pystr "PDF_CONTENT:" ++ name file ++ pystr ": "
                      ++ slice_to MAX_FILE_CONTENT (join (pystr " ") texts)
                      ++ pystr "...") by congruence.
    rewrite E.
    destruct (slice_to_MAX_length (join (pystr " ") texts)) as [H _].
    rewrite !length_app. change (Z.to_nat MAX_FILE_CONTENT) with 1000%nat in H.
    change (length (pystr "PDF_CONTENT:")) with 12%nat.
    change (length (pystr ": ")) with 2%nat.
    change (length (pystr "...")) with 3%nat. lia.
  - destruct (read file) as [data | e]; [| discriminate].
    cbn [obind]. intros Hs.
    assert (E : s = pystr "FILE_CONTENT:" ++ name file ++ pystr ": "
                      ++ slice_to MAX_FILE_CONTENT (decode data)
                      ++ pystr "...") by congruence.
    rewrite E.
    destruct (slice_to_MAX_length (decode data)) as [H _].
    rewrite !length_app. change (Z.to_nat MAX_FILE_CONTENT) with 1000%nat in H.
    change (length (pystr "FILE_CONTENT:")) with 13%nat.
    change (length (pystr ": ")) with 2%nat.
    change (length (pystr "...")) with 3%nat. lia.
Qed.

Lemma snippet_length_bound_witness :
  (length (pystr "FILE_CONTENT:a.txt: hi...") <= length (pystr "a.txt") + 1018)%nat.
Proof.
  apply (snippet_length_bound
           {| name := pystr "a.txt"; type := []; read := Return [x68; x69];
              PdfReader := Raise (Exception []) |}
           (pystr "FILE_CONTENT:a.txt: hi...")).
  reflexivity.
Defined.

(** X10. When every file of the batch fails (its reader raises, or a page of
    it does), and in particular for an empty batch, the result is the empty
    string, and the prompt built from it is the user's input alone. *)
Theorem all_failed_gives_empty (files : list UploadedFile) (user_input : str) :
  Forall (fun file => exists e, snippet file = Raise e) files ->
  process_uploaded_files files = [] /\
  full_prompt_of user_input (file_context_of files) = user_input.
Proof.
  intros H.
  assert (Hp : process_uploaded_files files = []).
  { unfold process_uploaded_files. rewrite process_files_contributions. cbn [app].
    replace (flat_map contribution files) with (@nil str); [reflexivity |].
    induction H as [| f files [e Hf] _ IH]; [reflexivity |].
    cbn [flat_map]. unfold contribution at 1. now rewrite Hf. }
  split; [exact Hp |].
  unfold file_context_of. destruct files; [reflexivity | now rewrite Hp].
Qed.

Lemma all_failed_gives_empty_witness :
  process_uploaded_files
    [{| name := pystr "a.pdf"; type := pystr "application/pdf";
        read := Return []; PdfReader := Raise (Exception (pystr "EOF marker not found")) |};
     {| name := pystr "b.txt"; type := pystr "text/plain";
        read := Raise (Exception (pystr "closed file")); PdfReader := Return [] |}] = [].
Proof.
  apply (all_failed_gives_empty _ []).
  repeat constructor; eexists; reflexivity.
Defined.

(** X11. When every file of the batch gives a snippet, the result is these
    snippets in the order of the files, with one newline between two
    neighbours and none at either end. *)
Theorem snippets_in_input_order (files : list UploadedFile) (snippets : list str) :
  Forall2 (fun file s => snippet file = Return s) files snippets ->
  process_uploaded_files files = join newline snippets.
Proof.
  intros H. unfold process_uploaded_files.
  rewrite process_files_contributions. cbn [app]. f_equal.
  induction H as [| f s files snippets Hf _ IH]; [reflexivity |].
  cbn [flat_map]. unfold contribution at 1. rewrite Hf, IH. reflexivity.
Qed.

Lemma snippets_in_input_order_witness :
  process_uploaded_files
    [{| name := pystr "a"; type := []; read := Return [x68];
        PdfReader := Raise (Exception []) |};
     {| name := pystr "b"; type := pystr "application/pdf"; read := Return [];
        PdfReader := Return [{| extract_text := Return None |}] |}] =
  pystr "FILE_CONTENT:a: h..." ++ newline ++ pystr "PDF_CONTENT:b: ...".
Proof.
  apply (snippets_in_input_order _
           [pystr "FILE_CONTENT:a: h..."; pystr "PDF_CONTENT:b: ..."]).
  repeat constructor.
Defined.

(** ** The completion request: every way a call can end *)

Lemma extract_content_exceptions (response_data : value) (e : exception) :
  extract_content response_data = Raise e ->
  e = IndexError \/ e = KeyError \/ e = TypeError \/ e = AttributeError.
Proof.
  unfold extract_content, get, getitem0, obind.
  repeat (cbv beta iota;
          match goal with
          | |- context [match ?x with _ => _ end] => is_var x; destruct x
          | |- context [match lookup ?k ?d with _ => _ end] =>
              destruct (lookup k d)
          end);
    cbv beta iota; intros H; try discriminate H; injection H as <-; auto.
Qed.

Lemma query_deepseek_extract_raises (float : Type)
    (requests_post : request float -> outcome response)
    (key prompt system_prompt model : str) (memory : ChatMemory.t)
    (temperature : float) (st : session_state)
    (r : response) (response_data : value) (e : exception) :
  requests_post (build_request key prompt system_prompt memory model
                               temperature st) = Return r ->
  status_code r = 200 ->
  response_json r = Return response_data ->
  extract_content response_data = Raise e ->
  query_deepseek requests_post (Some key) prompt system_prompt memory model
                 temperature st = (st, Raise e) /\
  (e = IndexError \/ e = KeyError \/ e = TypeError \/ e = AttributeError).
Proof.
  intros Hpost Hstatus Hjson Hextract.
  pose proof (extract_content_exceptions _ _ Hextract) as He.
  split; [| exact He].
  unfold query_deepseek, try_except_RequestException, bind, lift, ret.
  rewrite Hpost. unfold raise_for_status. rewrite Hstatus.
  cbn [Z.leb Z.ltb Z.compare Pos.compare Pos.compare_cont andb Z.eqb Pos.eqb].
  rewrite Hjson, Hextract.
  destruct He as [-> | [-> | [-> | ->]]]; reflexivity.
Qed.

(** X12. When a 200 response carries a JSON body from which the content
    cannot be read (the extraction raises), the exception is an IndexError,
    KeyError, TypeError or AttributeError, it is not handled by
    [query_deepseek] and reaches the caller, and both logs are as before. *)
Theorem malformed_body_raises_to_caller (float : Type)
    (requests_post : request float -> outcome response)
    (key prompt system_prompt model : str) (memory : ChatMemory.t)
    (temperature : float) (st : session_state)
    (r : response) (response_data : value) (e : exception) :
  requests_post (build_request key prompt system_prompt memory model
                               temperature st) = Return r ->
  status_code r = 200 ->
  response_json r = Return response_data ->
  extract_content response_data = Raise e ->
  query_deepseek requests_post (Some key) prompt system_prompt memory model
                 temperature st = (st, Raise e) /\
  (e = IndexError \/ e = KeyError \/ e = TypeError \/ e = AttributeError).
Proof. apply query_deepseek_extract_raises. Qed.

Lemma malformed_body_raises_to_caller_witness :
  query_deepseek (float := unit)
    (fun _ => Return {| status_code := 200; response_json := Return (VList []) |})
    (Some (pystr "k")) (pystr "q") (pystr "s")
    {| ChatMemory.max_messages := MAX_CONTEXT_MESSAGES |} (pystr "m") tt
    {| messages := []; full_history := [] |}
  = ({| messages := []; full_history := [] |}, Raise AttributeError).
Proof.
  apply (malformed_body_raises_to_caller unit
           (fun _ => Return {| status_code := 200;
                               response_json := Return (VList []) |})
           (pystr "k") (pystr "q") (pystr "s") (pystr "m")
           {| ChatMemory.max_messages := MAX_CONTEXT_MESSAGES |} tt
           {| messages := []; full_history := [] |}
           {| status_code := 200; response_json := Return (VList []) |}
           (VList []) AttributeError); reflexivity.
Defined.

(** X13. When a 200 response has a body that [response.json()] rejects with a
    RequestException (the JSON decoding error of requests),
    [query_deepseek] returns None and both logs are as before. *)
Theorem undecodable_body_returns_None (float : Type)
    (requests_post : request float -> outcome response)
    (key prompt system_prompt model : str) (memory : ChatMemory.t)
    (temperature : float) (st : session_state) (r : response) (descr : str) :
  requests_post (build_request key prompt system_prompt memory model
                               temperature st) = Return r ->
  status_code r = 200 ->
  response_json r = Raise (RequestException descr) ->
  query_deepseek requests_post (Some key) prompt system_prompt memory model
                 temperature st = (st, Return None).
Proof.
  intros Hpost Hstatus Hjson.
  unfold query_deepseek, try_except_RequestException, bind, lift, ret.
  rewrite Hpost. unfold raise_for_status. rewrite Hstatus.
  cbn [Z.leb Z.ltb Z.compare Pos.compare Pos.compare_cont andb Z.eqb Pos.eqb].
  now rewrite Hjson.
Qed.

Lemma undecodable_body_returns_None_witness :
  query_deepseek (float := unit)
    (fun _ => Return {| status_code := 200;
                        response_json := Raise (RequestException (pystr "JSONDecodeError")) |})
    (Some (pystr "k")) (pystr "q") (pystr "s")
    {| ChatMemory.max_messages := MAX_CONTEXT_MESSAGES |} (pystr "m") tt
    {| messages := []; full_history := [] |}
  = ({| messages := []; full_history := [] |}, Return None).
Proof.
  apply (undecodable_body_returns_None unit
           (fun _ => Return {| status_code := 200;
                               response_json := Raise (RequestException (pystr "JSONDecodeError")) |})
           (pystr "k") (pystr "q") (pystr "s") (pystr "m")
           {| ChatMemory.max_messages := MAX_CONTEXT_MESSAGES |} tt
           {| messages := []; full_history := [] |}
           {| status_code := 200;
              response_json := Raise (RequestException (pystr "JSONDecodeError")) |}
           (pystr "JSONDecodeError")); reflexivity.
Defined.

(** X14. Only the status 200 is read as a reply: for a response with any
    other status, the other 2xx codes included, [query_deepseek] returns None
    without reading the body, and both logs are as before. *)
Theorem other_status_returns_None (float : Type)
    (requests_post : request float -> outcome response)
    (key prompt system_prompt model : str) (memory : ChatMemory.t)
    (temperature : float) (st : session_state) (r : response) :
  requests_post (build_request key prompt system_prompt memory model
                               temperature st) = Return r ->
  status_code r <> 200 ->
  query_deepseek requests_post (Some key) prompt system_prompt memory model
                 temperature st = (st, Return None).
Proof.
  intros Hpost Hstatus.
  unfold query_deepseek, try_except_RequestException, bind, lift, ret.
  rewrite Hpost. unfold raise_for_status.
  destruct ((400 <=? status_code r) && (status_code r <? 600)); [reflexivity |].
  destruct (Z.eqb_spec (status_code r) 200) as [E | _]; [contradiction | reflexivity].
Qed.

Lemma other_status_returns_None_witness :
  query_deepseek (float := unit)
    (fun _ => Return {| status_code := 204;
                        response_json := Return (VDict []) |})
    (Some (pystr "k")) (pystr "q") (pystr "s")
    {| ChatMemory.max_messages := MAX_CONTEXT_MESSAGES |} (pystr "m") tt
    {| messages := []; full_history := [] |}
  = ({| messages := []; full_history := [] |}, Return None).
Proof.
  apply (other_status_returns_None unit
           (fun _ => Return {| status_code := 204;
                               response_json := Return (VDict []) |})
           (pystr "k") (pystr "q") (pystr "s") (pystr "m")
           {| ChatMemory.max_messages := MAX_CONTEXT_MESSAGES |} tt
           {| messages := []; full_history := [] |}
           {| status_code := 204; response_json := Return (VDict []) |}).
  - reflexivity.
  - cbn. discriminate.
Defined.

Lemma query_deepseek_str_reply (float : Type)
    (requests_post : request float -> outcome response)
    (key prompt system_prompt model : str) (memory : ChatMemory.t)
    (temperature : float) (st : session_state)
    (r : response) (response_data : value) (reply : str) :
  0 <= ChatMemory.max_messages memory ->
  str_contents (full_history st) ->
  requests_post (build_request key prompt system_prompt memory model
                               temperature st) = Return r ->
  status_code r = 200 ->
  response_json r = Return response_data ->
  extract_content response_data = Return (VStr reply) ->
  let turn := [ {| role := pystr "user"; content := VStr prompt |};
                {| role := pystr "assistant"; content := VStr reply |} ] in
  query_deepseek requests_post (Some key) prompt system_prompt memory model
                 temperature st
  = ({| messages := messages st ++ turn;
        full_history :=
          last_entries (Z.to_nat (ChatMemory.max_messages memory))
                       (full_history st ++ turn) |},
     Return (Some response_data)).
Proof.
  intros Hb Hs Hpost Hstatus Hjson Hcontent turn.
  unfold query_deepseek, try_except_RequestException, lift, ret.
  unfold bind at 1. unfold bind at 1. rewrite Hpost.
  unfold bind at 1. unfold raise_for_status. rewrite Hstatus.
  cbn [Z.leb Z.ltb Z.compare Pos.compare Pos.compare_cont andb Z.eqb Pos.eqb].
  unfold bind at 1. rewrite Hjson.
  unfold bind at 1. rewrite Hcontent.
  unfold bind at 1.
  rewrite (add_message_str memory (pystr "user") prompt st Hb Hs).
  cbv zeta. unfold bind at 1.
  rewrite add_message_str; cbn [messages full_history].
  - rewrite last_entries_app, <- !app_assoc. reflexivity.
  - exact Hb.
  - apply str_contents_last_entries, str_contents_app; [exact Hs |].
    constructor; [now exists prompt | constructor].
Qed.

(** X15. A 200 response whose extracted content is a string [reply]: with a
    bound [max_messages >= 0] and a context log of string contents,
    [query_deepseek] appends the user message with the prompt and then the
    assistant message with [reply] to the display log and to the context log,
    leaves the context log with its last [max_messages] entries, and returns
    the response data. *)
Theorem successful_call_commits_turn (float : Type)
    (requests_post : request float -> outcome response)
    (key prompt system_prompt model : str) (memory : ChatMemory.t)
    (temperature : float) (st : session_state)
    (r : response) (response_data : value) (reply : str) :
  0 <= ChatMemory.max_messages memory ->
  str_contents (full_history st) ->
  requests_post (build_request key prompt system_prompt memory model
                               temperature st) = Return r ->
  status_code r = 200 ->
  response_json r = Return response_data ->
  extract_content response_data = Return (VStr reply) ->
  let turn := [ {| role := pystr "user"; content := VStr prompt |};
                {| role := pystr "assistant"; content := VStr reply |} ] in
  query_deepseek requests_post (Some key) prompt system_prompt memory model
                 temperature st
  = ({| messages := messages st ++ turn;
        full_history :=
          last_entries (Z.to_nat (ChatMemory.max_messages memory))
                       (full_history st ++ turn) |},
     Return (Some response_data)).
Proof. apply query_deepseek_str_reply. Qed.

Lemma successful_call_commits_turn_witness :
  query_deepseek (float := unit)
    (fun _ => Return {| status_code := 200;
                        response_json :=
                          Return (VDict [(pystr "choices",
                            VList [VDict [(pystr "message",
                              VDict [(pystr "content", VStr (pystr "Hi"))])]])]) |})
    (Some (pystr "k")) (pystr "q") (pystr "s")
    {| ChatMemory.max_messages := MAX_CONTEXT_MESSAGES |} (pystr "m") tt
    {| messages := []; full_history := [] |}
  = ({| messages := [ {| role := pystr "user"; content := VStr (pystr "q") |};
                      {| role := pystr "assistant"; content := VStr (pystr "Hi") |} ];
        full_history := [ {| role := pystr "user"; content := VStr (pystr "q") |};
                          {| role := pystr "assistant"; content := VStr (pystr "Hi") |} ] |},
     Return (Some (VDict [(pystr "choices",
                            VList [VDict [(pystr "message",
                              VDict [(pystr "content", VStr (pystr "Hi"))])]])]))).
Proof.
  apply (successful_call_commits_turn unit _
           (pystr "k") (pystr "q") (pystr "s") (pystr "m")
           {| ChatMemory.max_messages := MAX_CONTEXT_MESSAGES |} tt
           {| messages := []; full_history := [] |}
           {| status_code := 200;
              response_json :=
                Return (VDict [(pystr "choices",
                  VList [VDict [(pystr "message",
                    VDict [(pystr "content", VStr (pystr "Hi"))])]])]) |}
           _ (pystr "Hi")).
  - unfold MAX_CONTEXT_MESSAGES. cbn. lia.
  - constructor.
  - reflexivity.
  - reflexivity.
  - reflexivity.
  - reflexivity.
Defined.

(** X16. However a call of [query_deepseek] ends (a result, None or an
    exception), for any key, bound, log contents, network behaviour and
    response, the display log afterwards is the display log before followed by
    at most two new messages, the first of which is the user message with the
    prompt: a call never removes or changes a displayed message. *)
Theorem query_only_appends_to_display_log (float : Type)
    (requests_post : request float -> outcome response)
    (api_key : option str) (prompt system_prompt model : str)
    (memory : ChatMemory.t) (temperature : float) (st : session_state) :
  let st' := fst (query_deepseek requests_post api_key prompt system_prompt
                                 memory model temperature st) in
  exists added : list Message,
    messages st' = messages st ++ added /\
    (added = [] \/
     added = [{| role := pystr "user"; content := VStr prompt |}] \/
     exists reply,
       added = [{| role := pystr "user"; content := VStr prompt |};
                {| role := pystr "assistant"; content := reply |}]).
Proof.
  cbv zeta.
  assert (Hnone : forall s : session_state,
             exists added : list Message,
               messages s = messages s ++ added /\
               (added = [] \/
                added = [{| role := pystr "user"; content := VStr prompt |}] \/
                exists reply,
                  added = [{| role := pystr "user"; content := VStr prompt |};
                           {| role := pystr "assistant"; content := reply |}])).
  { intros s. exists []. rewrite app_nil_r. auto. }
  unfold query_deepseek, try_except_RequestException, bind, lift, ret.
  destruct api_key as [key |]; [| apply Hnone].
  destruct (requests_post _) as [r | e]; [| destruct e; apply Hnone].
  unfold raise_for_status.
  destruct ((400 <=? status_code r) && (status_code r <? 600)); [apply Hnone |].
  destruct (status_code r =? 200); [| apply Hnone].
  destruct (response_json r) as [data | e]; [| destruct e; apply Hnone].
  destruct (extract_content data) as [reply | e]; [| destruct e; apply Hnone].
  rewrite add_message_unfold. cbv zeta.
  destruct (snd (ChatMemory.trim _ _)) as [[] | e].
  - rewrite add_message_unfold. cbv zeta. cbn [messages full_history].
    exists [{| role := pystr "user"; content := VStr prompt |};
            {| role := pystr "assistant"; content := reply |}].
    split; [| right; right; now exists reply].
    destruct (snd (ChatMemory.trim _ _)) as [[] | e];
      [| destruct e]; cbn [fst messages]; now rewrite <- app_assoc.
  - exists [{| role := pystr "user"; content := VStr prompt |}].
    split; [| now right; left].
    destruct e; reflexivity.
Qed.

(** ** The display log on the page *)

Lemma starts_with_app (m b : str) : starts_with m (m ++ b) = true.
Proof.
  induction m as [| x m IH]; [reflexivity |].
  cbn [app starts_with]. now rewrite N.eqb_refl, IH.
Qed.

Lemma contains_app (m a b : str) : contains m (a ++ m ++ b) = true.
Proof.
  induction a as [| x a IH].
  - cbn [app]. destruct (m ++ b) as [| y t] eqn:E.
    + apply app_eq_nil in E. destruct E as [-> _]. reflexivity.
    + cbn [contains]. rewrite <- E, starts_with_app. reflexivity.
  - cbn [app contains]. rewrite IH. apply orb_true_r.
Qed.

Lemma break_at_sep (sep : codepoint) (a rest : str) :
  ~ In sep a -> break_at sep (a ++ sep :: rest) = (a, Some rest).
Proof.
  induction a as [| c a IH]; intros Hin; cbn [app break_at].
  - now rewrite N.eqb_refl.
  - destruct (N.eqb_spec c sep) as [-> | _].
    + exfalso. apply Hin. now left.
    + rewrite IH; [reflexivity |]. intros H. apply Hin. now right.
Qed.

Lemma split_two_separators (sep : codepoint) (a b c : str) :
  ~ In sep a -> ~ In sep b ->
  split sep 2 (a ++ sep :: b ++ sep :: c) = [a; b; c].
Proof.
  intros Ha Hb. cbn [split].
  rewrite (break_at_sep sep a _ Ha), (break_at_sep sep b _ Hb). reflexivity.
Qed.

Lemma split_not_nil (sep : codepoint) (n : nat) (s : str) : split sep n s <> [].
Proof.
  destruct n; cbn [split]; [discriminate |].
  destruct (break_at sep s) as [before [after |]]; discriminate.
Qed.

Lemma first_item_returns (parts : list str) :
  parts <> [] -> exists x, first_item parts = Return x.
Proof. destruct parts; [contradiction | now eexists]. Qed.

Lemma last_item_returns (parts : list str) :
  parts <> [] -> exists x, last_item parts = Return x.
Proof.
  intros H. unfold last_item. destruct (rev parts) as [| x t] eqn:E.
  - exfalso. apply H. rewrite <- (rev_involutive parts), E. reflexivity.
  - now eexists.
Qed.

Section Rendering.

Variable py_str : value -> str.

Lemma render_message_str (msg : Message) (s : str) :
  content msg = VStr s ->
  exists shown,
    render_message py_str msg = Return shown /\
    (1 <= length shown <= 2)%nat.
Proof.
  intros Hc. unfold render_message. rewrite Hc.
  cbn [value_contains obind].
  destruct (contains (pystr "FILE_CONTENT") s);
    [| cbn [value_contains obind];
       destruct (contains (pystr "PDF_CONTENT") s)].
  3: { eexists. split; [reflexivity | cbn [length]; lia]. }
  all: cbn [obind value_split];
    destruct (first_item_returns _ (split_not_nil colon 2 s)) as [h ->];
    destruct (last_item_returns _ (split_not_nil colon 2 s)) as [t ->];
    cbn [obind]; eexists; (split; [reflexivity | cbn [length]; lia]).
Qed.

Lemma render_history_app (a b : list Message) :
  render_history py_str (a ++ b) =
  match render_history py_str a with
  | (shown, Return _) =>
      let (more, r) := render_history py_str b in (shown ++ more, r)
  | (shown, Raise e) => (shown, Raise e)
  end.
Proof.
  induction a as [| m a IH]; cbn [app render_history].
  - now destruct (render_history py_str b).
  - destruct (render_message py_str m) as [shown | e]; [| reflexivity].
    rewrite IH. destruct (render_history py_str a) as [sa [[] | e]].
    + destruct (render_history py_str b) as [sb rb]. now rewrite app_assoc.
    + reflexivity.
Qed.

Lemma render_history_str (msgs : list Message) :
  str_contents msgs ->
  exists shown,
    render_history py_str msgs = (shown, Return tt) /\
    (length msgs <= length shown <= 2 * length msgs)%nat.
Proof.
  induction 1 as [| m msgs [s Hm] _ [shown [IH Hlen]]]; cbn [render_history].
  - exists []. split; [reflexivity | cbn; lia].
  - destruct (render_message_str m s Hm) as [first [-> Hfirst]].
    rewrite IH. eexists. split; [reflexivity |].
    rewrite length_app. cbn [length]. lia.
Qed.

End Rendering.

(** X17. When every content of the display log is a string, the loop that
    shows the log ends normally, whatever the strings are, and shows one or
    two elements for each message. *)
Theorem history_of_strings_is_shown (py_str : value -> str)
    (msgs : list Message) :
  str_contents msgs ->
  exists shown,
    render_history py_str msgs = (shown, Return tt) /\
    (length msgs <= length shown <= 2 * length msgs)%nat.
Proof. apply render_history_str. Qed.

Lemma history_of_strings_is_shown_witness :
  exists shown,
    render_history (fun _ => [])
      [message_of (pystr "user", pystr "see PDF_CONTENT:::");
       message_of (pystr "assistant", pystr "ok")] = (shown, Return tt) /\
    (2 <= length shown <= 2 * 2)%nat.
Proof.
  apply (history_of_strings_is_shown (fun _ => [])
           [message_of (pystr "user", pystr "see PDF_CONTENT:::");
            message_of (pystr "assistant", pystr "ok")]).
  apply str_contents_calls with
    (calls := [(pystr "user", pystr "see PDF_CONTENT:::");
               (pystr "assistant", pystr "ok")]).
Defined.

Lemma render_history_non_iterable (py_str : value -> str)
    (before after : list Message) (msg : Message) :
  str_contents before ->
  (content msg = VNone \/ (exists b, content msg = VBool b) \/
   (exists n, content msg = VInt n) \/ (exists q, content msg = VFloat q)) ->
  exists shown,
    render_history py_str before = (shown, Return tt) /\
    render_history py_str (before ++ msg :: after) = (shown, Raise TypeError).
Proof.
  intros Hs Hc.
  destruct (render_history_str py_str before Hs) as [shown [Hb _]].
  exists shown. split; [exact Hb |].
  rewrite render_history_app, Hb. cbn [render_history].
  assert (Hm : render_message py_str msg = Raise TypeError).
  { unfold render_message.
    destruct Hc as [-> | [[b ->] | [[n ->] | [q ->]]]]; reflexivity. }
  rewrite Hm. now rewrite app_nil_r.
Qed.

(** X18. A message whose content is None, a boolean or a number stops the
    loop that shows the display log: when the messages before it hold
    strings, they are shown and then TypeError is raised, and no later
    message is shown. *)
Theorem non_iterable_content_stops_history (py_str : value -> str)
    (before after : list Message) (msg : Message) :
  str_contents before ->
  (content msg = VNone \/ (exists b, content msg = VBool b) \/
   (exists n, content msg = VInt n) \/ (exists q, content msg = VFloat q)) ->
  exists shown,
    render_history py_str before = (shown, Return tt) /\
    render_history py_str (before ++ msg :: after) = (shown, Raise TypeError).
Proof. apply render_history_non_iterable. Qed.

Lemma non_iterable_content_stops_history_witness :
  exists shown,
    render_history (fun _ => []) [message_of (pystr "user", pystr "q")]
      = (shown, Return tt) /\
    render_history (fun _ => [])
      ([message_of (pystr "user", pystr "q")]
         ++ {| role := pystr "assistant"; content := VNone |}
         :: [message_of (pystr "user", pystr "again")])
      = (shown, Raise TypeError).
Proof.
  apply (non_iterable_content_stops_history (fun _ => [])
           [message_of (pystr "user", pystr "q")]
           [message_of (pystr "user", pystr "again")]
           {| role := pystr "assistant"; content := VNone |}).
  - apply str_contents_calls with (calls := [(pystr "user", pystr "q")]).
  - now left.
Defined.

Lemma full_prompt_with_context (user_input file_context : str) :
  file_context <> [] ->
  full_prompt_of user_input file_context = user_input ++ newline ++ file_context.
Proof. destruct file_context; [contradiction | reflexivity]. Qed.

Lemma plain_file_context (file : UploadedFile) (data : list byte) :
  str_eqb (type file) (pystr "application/pdf") = false ->
  read file = Return data ->
  file_context_of [file] =
    (pystr "FILE_CONTENT" ++ [colon]) ++ name file ++ (colon :: pystr " ")
      ++ firstn (Z.to_nat MAX_FILE_CONTENT) (decode data) ++ pystr "...".
Proof.
  intros Htype Hread. cbn [file_context_of].
  unfold process_uploaded_files. cbn [process_files].
  unfold snippet. rewrite Htype, Hread. cbn [obind app process_files join flat_map].
  rewrite slice_to_MAX_FILE_CONTENT, app_nil_r. reflexivity.
Qed.

Lemma no_colon_in_label : ~ In colon (newline ++ pystr "FILE_CONTENT").
Proof.
  intros H. cbv in H.
  repeat (destruct H as [H | H]; [discriminate H |]). exact H.
Qed.

(** X19. How a turn with one attached text file comes back in the history:
    the stored user message is the input, a newline and the snippet; when
    neither the input nor the file name holds a colon, the line shown is
    "User: " + input + newline + "FILE_CONTENT" and the expander holds a
    space, the quoted text and the ellipsis. The file name is not shown. *)
Theorem attachment_turn_in_history (py_str : value -> str)
    (file : UploadedFile) (data : list byte) (user_input : str) :
  str_eqb (type file) (pystr "application/pdf") = false ->
  read file = Return data ->
  ~ In colon user_input ->
  ~ In colon (name file) ->
  render_message py_str
    {| role := pystr "user";
       content := VStr (full_prompt_of user_input (file_context_of [file])) |}
  = Return [st_write (pystr "User: " ++ user_input ++ newline
                        ++ pystr "FILE_CONTENT");
            st_expander (pystr "Attached Files")
              [st_text (pystr " " ++ firstn (Z.to_nat MAX_FILE_CONTENT) (decode data)
                          ++ pystr "...")]].
Proof.
  intros Htype Hread Hu Hn.
  set (text := firstn (Z.to_nat MAX_FILE_CONTENT) (decode data)).
  assert (Hfull : full_prompt_of user_input (file_context_of [file]) =
                  (user_input ++ newline ++ pystr "FILE_CONTENT")
                    ++ colon :: name file
                    ++ colon :: pystr " " ++ text ++ pystr "...").
  { rewrite (plain_file_context file data Htype Hread).
    rewrite full_prompt_with_context.
    - fold text. rewrite <- !app_assoc. reflexivity.
    - intros E. apply app_eq_nil in E. destruct E as [E _].
      apply app_eq_nil in E. destruct E as [_ E]. discriminate E. }
  assert (Hmark : contains (pystr "FILE_CONTENT")
                    (full_prompt_of user_input (file_context_of [file])) = true).
  { rewrite Hfull, <- !app_assoc. rewrite (app_assoc user_input newline).
    apply contains_app. }
  unfold render_message. cbn [role content value_contains obind].
  rewrite Hmark. cbn [obind value_split]. rewrite Hfull.
  rewrite split_two_separators.
  - reflexivity.
  - intros H. apply in_app_or in H. destruct H as [H | H];
      [now apply Hu | now apply no_colon_in_label].
  - exact Hn.
Qed.

Lemma attachment_turn_in_history_witness :
  render_message (fun _ => [])
    {| role := pystr "user";
       content := VStr (pystr "look" ++ newline ++ pystr "FILE_CONTENT:a.txt: hi...") |}
  = Return [st_write (pystr "User: look" ++ newline ++ pystr "FILE_CONTENT");
            st_expander (pystr "Attached Files") [st_text (pystr " hi...")]].
Proof.
  apply (attachment_turn_in_history (fun _ => [])
           {| name := pystr "a.txt"; type := pystr "text/plain";
              read := Return [x68; x69]; PdfReader := Raise (Exception []) |}
           [x68; x69] (pystr "look")).
  - reflexivity.
  - reflexivity.
  - cbv. intros H. repeat (destruct H as [H | H]; [discriminate H |]). exact H.
  - cbv. intros H. repeat (destruct H as [H | H]; [discriminate H |]). exact H.
Defined.

(** ** One turn of the main page *)

Lemma extract_content_truthy (response_data v : value) :
  extract_content response_data = Return v -> truthy v = true ->
  truthy response_data = true.
Proof.
  destruct response_data as [| | | | | | [| kv d]]; try discriminate.
  - cbn. intros [= <-]. discriminate.
  - reflexivity.
Qed.

Lemma query_deepseek_transport_failure (float : Type)
    (requests_post : request float -> outcome response)
    (key prompt system_prompt model : str) (memory : ChatMemory.t)
    (temperature : float) (st : session_state) :
  (exists descr,
      requests_post (build_request key prompt system_prompt memory model
                                   temperature st)
      = Raise (RequestException descr)) \/
  (exists r,
      requests_post (build_request key prompt system_prompt memory model
                                   temperature st)
      = Return r /\ status_code r <> 200) ->
  query_deepseek requests_post (Some key) prompt system_prompt memory model
                 temperature st
  = (st, Return None).
Proof.
  intros [[descr H] | [r [H Hstatus]]].
  - unfold query_deepseek, try_except_RequestException, bind, lift, ret.
    now rewrite H.
  - unfold query_deepseek, try_except_RequestException, bind, lift, ret.
    rewrite H. unfold raise_for_status.
    destruct ((400 <=? status_code r) && (status_code r <? 600)); [reflexivity |].
    destruct (Z.eqb_spec (status_code r) 200) as [E | _];
      [contradiction | reflexivity].
Qed.

Section Turn.

Variable float : Type.
Variable py_str : value -> str.
Variable exception_str : exception -> str.
Variable requests_post : request float -> outcome response.
Variable api_key : option str.
Variable memory : ChatMemory.t.
Variable i : inputs float.

Let file_context := file_context_of (uploaded_files i).
Let prompt := full_prompt_of (user_input i) file_context.

Lemma handle_input_of_query (st st' : session_state)
      (o : outcome (option value)) :
  query_deepseek requests_post api_key prompt (system_role i) memory
                 (model_choice i) (temperature_level i) st = (st', o) ->
  handle_input py_str exception_str requests_post api_key memory i st =
  (st',
   Return (echo (user_input i) file_context
             ++ match o with
                | Return response =>
                    match render_reply py_str response with
                    | Return shown => shown
                    | Raise e =>
                        [st_error (pystr "Communication error: "
                                     ++ exception_str e)]
                    end
                | Raise e =>
                    [st_error (pystr "Communication error: " ++ exception_str e)]
                end)).
Proof.
  intros Hq.
  unfold handle_input, try_except_Exception, bind, lift, ret.
  fold file_context. fold prompt. rewrite Hq.
  destruct o as [response | e]; [| reflexivity].
  destruct (render_reply py_str response); reflexivity.
Qed.

End Turn.

Section TurnProperties.

Variable float : Type.
Variable py_str : value -> str.
Variable exception_str : exception -> str.
Variable requests_post : request float -> outcome response.
Variable memory : ChatMemory.t.
Variable i : inputs float.

Let file_context := file_context_of (uploaded_files i).
Let prompt := full_prompt_of (user_input i) file_context.

(** X20. The lines that handle an input never raise: whatever the session
    holds and whatever the key, the network and the response do (a missing
    key and an unreadable body included), they end normally, the first
    element they show is the line "User: " + input, and the logs are left as
    [query_deepseek] leaves them. *)
Theorem turn_never_raises (api_key : option str) (st : session_state) :
  exists shown,
    handle_input py_str exception_str requests_post api_key memory i st =
    (fst (query_deepseek requests_post api_key prompt (system_role i) memory
                         (model_choice i) (temperature_level i) st),
     Return (st_write (pystr "User: " ++ user_input i) :: shown)).
Proof.
  destruct (query_deepseek requests_post api_key prompt (system_role i) memory
                           (model_choice i) (temperature_level i) st)
    as [st' o] eqn:Hq.
  rewrite (handle_input_of_query _ _ _ _ _ _ _ _ _ _ Hq).
  unfold echo. cbn [app fst]. eexists. reflexivity.
Qed.

(** X21. A turn answered by a 200 response whose extracted content is a
    string [reply], on a memory with a bound [max_messages >= 0] and a context
    log in which every content is a string (so that no eviction raises): the
    user message with the full prompt and the assistant message are appended
    to both logs, and after the echo of the input the page shows "Assistant: "
    + reply when the reply is not empty; for an empty reply it shows the
    notice "Failed to get valid response from API", or nothing at all when
    the response data is itself empty, although the turn is in the logs. *)
Theorem turn_with_string_reply (key : str) (st : session_state)
    (r : response) (response_data : value) (reply : str) :
  0 <= ChatMemory.max_messages memory ->
  str_contents (full_history st) ->
  requests_post (build_request key prompt (system_role i) memory
                               (model_choice i) (temperature_level i) st)
    = Return r ->
  status_code r = 200 ->
  response_json r = Return response_data ->
  extract_content response_data = Return (VStr reply) ->
  let turn := [ {| role := pystr "user"; content := VStr prompt |};
                {| role := pystr "assistant"; content := VStr reply |} ] in
  handle_input py_str exception_str requests_post (Some key) memory i st =
  ({| messages := messages st ++ turn;
      full_history :=
        last_entries (Z.to_nat (ChatMemory.max_messages memory))
                     (full_history st ++ turn) |},
   Return (echo (user_input i) file_context
             ++ match reply with
                | _ :: _ => [st_markdown (pystr "Assistant: " ++ reply)]
                | [] =>
                    if truthy response_data
                    then [st_error (pystr "Failed to get valid response from API")]
                    else []
                end)).
Proof.
  intros Hb Hs Hpost Hstatus Hjson Hcontent turn.
  pose proof (query_deepseek_str_reply float requests_post key prompt
                (system_role i) (model_choice i) memory (temperature_level i)
                st r response_data reply Hb Hs Hpost Hstatus Hjson Hcontent)
    as Hq.
  cbv zeta in Hq.
  rewrite (handle_input_of_query _ _ _ _ _ _ _ _ _ _ Hq).
  f_equal. f_equal. f_equal.
  unfold render_reply. destruct reply as [| c reply].
  - destruct (truthy response_data); [| reflexivity].
    now rewrite Hcontent.
  - rewrite (extract_content_truthy _ _ Hcontent eq_refl).
    now rewrite Hcontent.
Qed.

(** X22. A turn answered by a 200 response from whose body the content
    cannot be read: the exception that leaves [query_deepseek] is caught by
    the page, which shows "Communication error: " + the error text after the
    echo of the input, and both logs are as before. *)
Theorem turn_with_unreadable_body (key : str) (st : session_state)
    (r : response) (response_data : value) (e : exception) :
  requests_post (build_request key prompt (system_role i) memory
                               (model_choice i) (temperature_level i) st)
    = Return r ->
  status_code r = 200 ->
  response_json r = Return response_data ->
  extract_content response_data = Raise e ->
  handle_input py_str exception_str requests_post (Some key) memory i st =
  (st,
   Return (echo (user_input i) file_context
             ++ [st_error (pystr "Communication error: " ++ exception_str e)])).
Proof.
  intros Hpost Hstatus Hjson Hextract.
  destruct (query_deepseek_extract_raises float requests_post key prompt
              (system_role i) (model_choice i) memory (temperature_level i)
              st r response_data e Hpost Hstatus Hjson Hextract) as [Hq _].
  now rewrite (handle_input_of_query _ _ _ _ _ _ _ _ _ _ Hq).
Qed.

(** X23. A turn whose request fails in transport ([requests.post] raises a
    RequestException, or the response has a status other than 200): the
    lines of the page add nothing after the echo of the input (no reply and
    no notice of their own), and both logs are as before. *)
Theorem turn_after_transport_failure (key : str) (st : session_state) :
  (exists descr,
      requests_post (build_request key prompt (system_role i) memory
                                   (model_choice i) (temperature_level i) st)
      = Raise (RequestException descr)) \/
  (exists r,
      requests_post (build_request key prompt (system_role i) memory
                                   (model_choice i) (temperature_level i) st)
      = Return r /\ status_code r <> 200) ->
  handle_input py_str exception_str requests_post (Some key) memory i st =
  (st, Return (echo (user_input i) file_context)).
Proof.
  intros H.
  pose proof (query_deepseek_transport_failure float requests_post key prompt
                (system_role i) (model_choice i) memory (temperature_level i)
                st H) as Hq.
  rewrite (handle_input_of_query _ _ _ _ _ _ _ _ _ _ Hq).
  cbn [render_reply]. now rewrite app_nil_r.
Qed.

End TurnProperties.

Lemma turn_with_string_reply_witness :
  handle_input (float := unit) (fun _ => []) (fun _ => [])
    (fun _ => Return {| status_code := 200;
                        response_json :=
                          Return (VDict [(pystr "choices",
                            VList [VDict [(pystr "message",
                              VDict [(pystr "content", VStr (pystr "Hi"))])]])]) |})
    (Some (pystr "k")) {| ChatMemory.max_messages := MAX_CONTEXT_MESSAGES |}
    {| model_choice := pystr "deepseek-chat"; temperature_level := tt;
       system_role := pystr "s"; uploaded_files := []; user_input := pystr "q" |}
    {| messages := []; full_history := [] |}
  = ({| messages := [ {| role := pystr "user"; content := VStr (pystr "q") |};
                      {| role := pystr "assistant"; content := VStr (pystr "Hi") |} ];
        full_history := [ {| role := pystr "user"; content := VStr (pystr "q") |};
                          {| role := pystr "assistant"; content := VStr (pystr "Hi") |} ] |},
     Return [st_write (pystr "User: q"); st_markdown (pystr "Assistant: Hi")]).
Proof.
  apply (turn_with_string_reply unit (fun _ => []) (fun _ => [])
           (fun _ => Return {| status_code := 200;
                               response_json :=
                                 Return (VDict [(pystr "choices",
                                   VList [VDict [(pystr "message",
                                     VDict [(pystr "content", VStr (pystr "Hi"))])]])]) |})
           {| ChatMemory.max_messages := MAX_CONTEXT_MESSAGES |}
           {| model_choice := pystr "deepseek-chat"; temperature_level := tt;
              system_role := pystr "s"; uploaded_files := [];
              user_input := pystr "q" |}
           (pystr "k") {| messages := []; full_history := [] |}
           {| status_code := 200;
              response_json :=
                Return (VDict [(pystr "choices",
                  VList [VDict [(pystr "message",
                    VDict [(pystr "content", VStr (pystr "Hi"))])]])]) |}
           (VDict [(pystr "choices",
              VList [VDict [(pystr "message",
                VDict [(pystr "content", VStr (pystr "Hi"))])]])])
           (pystr "Hi")).
  - unfold MAX_CONTEXT_MESSAGES. cbn. lia.
  - constructor.
  - reflexivity.
  - reflexivity.
  - reflexivity.
  - reflexivity.
Defined.

Lemma turn_with_unreadable_body_witness :
  handle_input (float := unit) (fun _ => []) (fun _ => pystr "list index out of range")
    (fun _ => Return {| status_code := 200;
                        response_json := Return (VDict [(pystr "choices", VList [])]) |})
    (Some (pystr "k")) {| ChatMemory.max_messages := MAX_CONTEXT_MESSAGES |}
    {| model_choice := pystr "deepseek-chat"; temperature_level := tt;
       system_role := pystr "s"; uploaded_files := []; user_input := pystr "q" |}
    {| messages := []; full_history := [] |}
  = ({| messages := []; full_history := [] |},
     Return [st_write (pystr "User: q");
             st_error (pystr "Communication error: list index out of range")]).
Proof.
  apply (turn_with_unreadable_body unit (fun _ => [])
           (fun _ => pystr "list index out of range")
           (fun _ => Return {| status_code := 200;
                               response_json :=
                                 Return (VDict [(pystr "choices", VList [])]) |})
           {| ChatMemory.max_messages := MAX_CONTEXT_MESSAGES |}
           {| model_choice := pystr "deepseek-chat"; temperature_level := tt;
              system_role := pystr "s"; uploaded_files := [];
              user_input := pystr "q" |}
           (pystr "k") {| messages := []; full_history := [] |}
           {| status_code := 200;
              response_json := Return (VDict [(pystr "choices", VList [])]) |}
           (VDict [(pystr "choices", VList [])]) IndexError); reflexivity.
Defined.

Lemma turn_after_transport_failure_witness :
  handle_input (float := unit) (fun _ => []) (fun _ => [])
    (fun _ => Raise (RequestException (pystr "ConnectionError")))
    (Some (pystr "k")) {| ChatMemory.max_messages := MAX_CONTEXT_MESSAGES |}
    {| model_choice := pystr "deepseek-chat"; temperature_level := tt;
       system_role := pystr "s"; uploaded_files := []; user_input := pystr "q" |}
    {| messages := []; full_history := [] |}
  = ({| messages := []; full_history := [] |},
     Return [st_write (pystr "User: q")]).
Proof.
  apply (turn_after_transport_failure unit (fun _ => []) (fun _ => [])
           (fun _ => Raise (RequestException (pystr "ConnectionError")))
           {| ChatMemory.max_messages := MAX_CONTEXT_MESSAGES |}
           {| model_choice := pystr "deepseek-chat"; temperature_level := tt;
              system_role := pystr "s"; uploaded_files := [];
              user_input := pystr "q" |}
           (pystr "k") {| messages := []; full_history := [] |}).
  left. eexists. reflexivity.
Defined.

(** ** Runs of the script *)

Lemma query_deepseek_null_reply (float : Type)
    (requests_post : request float -> outcome response)
    (key prompt system_prompt model : str) (memory : ChatMemory.t)
    (temperature : float) (st : session_state)
    (r : response) (response_data : value) :
  0 <= ChatMemory.max_messages memory ->
  str_contents (full_history st) ->
  requests_post (build_request key prompt system_prompt memory model
                               temperature st) = Return r ->
  status_code r = 200 ->
  response_json r = Return response_data ->
  extract_content response_data = Return VNone ->
  messages (fst (query_deepseek requests_post (Some key) prompt system_prompt
                                memory model temperature st)) =
  (messages st ++ [{| role := pystr "user"; content := VStr prompt |}])
    ++ [{| role := pystr "assistant"; content := VNone |}].
Proof.
  intros Hb Hs Hpost Hstatus Hjson Hcontent.
  unfold query_deepseek, try_except_RequestException, lift, ret.
  unfold bind at 1. unfold bind at 1. rewrite Hpost.
  unfold bind at 1. unfold raise_for_status. rewrite Hstatus.
  cbn [Z.leb Z.ltb Z.compare Pos.compare Pos.compare_cont andb Z.eqb Pos.eqb].
  unfold bind at 1. rewrite Hjson.
  unfold bind at 1. rewrite Hcontent.
  unfold bind at 1.
  rewrite (add_message_str memory (pystr "user") prompt st Hb Hs).
  cbv zeta. unfold bind at 1.
  rewrite add_message_unfold. cbv zeta. cbn [messages full_history].
  destruct (snd (ChatMemory.trim _ _)) as [[] | e]; [| destruct e]; reflexivity.
Qed.

(** X24. A reply whose content is null makes the page unusable: after a 200
    response whose extracted content is None (memory with the bound of the
    page, logs of strings), the display log ends with the user message and an
    assistant message of content None, and from then on every run of
    [main_interface] on that session, whatever the widgets and the network
    do, raises TypeError while showing the history and leaves the logs as they
    are. *)
Theorem null_reply_breaks_later_runs (float : Type)
    (py_str : value -> str) (exception_str : exception -> str)
    (requests_post : request float -> outcome response)
    (key prompt system_prompt model : str) (temperature : float)
    (st : session_state) (r : response) (response_data : value) :
  let memory := {| ChatMemory.max_messages := MAX_CONTEXT_MESSAGES |} in
  str_contents (messages st) ->
  str_contents (full_history st) ->
  requests_post (build_request key prompt system_prompt memory model
                               temperature st) = Return r ->
  status_code r = 200 ->
  response_json r = Return response_data ->
  extract_content response_data = Return VNone ->
  let st' := fst (query_deepseek requests_post (Some key) prompt system_prompt
                                 memory model temperature st) in
  messages st' =
    messages st ++ [{| role := pystr "user"; content := VStr prompt |};
                    {| role := pystr "assistant"; content := VNone |}] /\
  forall (later_post : request float -> outcome response)
         (later_key : option str) (later_inputs : inputs float),
    main_interface py_str exception_str later_post later_key later_inputs
                   (Some st') = (st', Raise TypeError).
Proof.
  intros memory Hm Hs Hpost Hstatus Hjson Hcontent st'.
  assert (Hb : 0 <= ChatMemory.max_messages memory) by (cbn; discriminate).
  pose proof (query_deepseek_null_reply float requests_post key prompt
                system_prompt model memory temperature st r response_data
                Hb Hs Hpost Hstatus Hjson Hcontent) as Hmsgs.
  fold st' in Hmsgs.
  split; [now rewrite Hmsgs, <- app_assoc |].
  intros later_post later_key later_inputs.
  unfold main_interface. cbn [ChatMemory.init ChatMemory.initialize_session].
  rewrite Hmsgs.
  destruct (render_history_non_iterable py_str
              (messages st ++ [{| role := pystr "user"; content := VStr prompt |}])
              [] {| role := pystr "assistant"; content := VNone |})
    as [shown [_ Hr]].
  - apply str_contents_app; [exact Hm |].
    constructor; [now exists prompt | constructor].
  - now left.
  - now rewrite Hr.
Qed.

Lemma null_reply_breaks_later_runs_witness :
  main_interface (float := unit) (fun _ => []) (fun _ => [])
    (fun _ => Raise (RequestException []))
    (Some (pystr "k"))
    {| model_choice := pystr "deepseek-chat"; temperature_level := tt;
       system_role := pystr "s"; uploaded_files := []; user_input := pystr "again" |}
    (Some {| messages := [ {| role := pystr "user"; content := VStr (pystr "q") |};
                           {| role := pystr "assistant"; content := VNone |} ];
             full_history := [ {| role := pystr "user"; content := VStr (pystr "q") |};
                               {| role := pystr "assistant"; content := VNone |} ] |})
  = ({| messages := [ {| role := pystr "user"; content := VStr (pystr "q") |};
                      {| role := pystr "assistant"; content := VNone |} ];
        full_history := [ {| role := pystr "user"; content := VStr (pystr "q") |};
                          {| role := pystr "assistant"; content := VNone |} ] |},
     Raise TypeError).
Proof.
  apply (proj2 (null_reply_breaks_later_runs unit (fun _ => []) (fun _ => [])
           (fun _ => Return {| status_code := 200;
                               response_json :=
                                 Return (VDict [(pystr "choices",
                                   VList [VDict [(pystr "message",
                                     VDict [(pystr "content", VNone)])]])]) |})
           (pystr "k") (pystr "q") (pystr "s") (pystr "deepseek-chat") tt
           {| messages := []; full_history := [] |}
           {| status_code := 200;
              response_json :=
                Return (VDict [(pystr "choices",
                  VList [VDict [(pystr "message",
                    VDict [(pystr "content", VNone)])]])]) |}
           (VDict [(pystr "choices",
              VList [VDict [(pystr "message",
                VDict [(pystr "content", VNone)])]])])
           (Forall_nil _) (Forall_nil _) eq_refl eq_refl eq_refl eq_refl)).
Defined.

Lemma trim_bounded (bound : Z) (h : list Message) :
  0 <= bound -> Z.of_nat (length h) <= bound + 1 ->
  Z.of_nat (length (fst (ChatMemory.trim bound h))) <= bound.
Proof.
  intros Hb Hlen.
  destruct (Z.le_gt_cases (Z.of_nat (length h)) bound) as [Hle | Hgt].
  - now rewrite trim_within_bound.
  - destruct h as [| m rest]; [cbn [length] in Hgt; lia |].
    rewrite trim_one_over; cbn [length fst] in *; lia.
Qed.

Lemma add_message_consistent (self : ChatMemory.t) (r : str) (c : value)
      (st : session_state) :
  0 <= ChatMemory.max_messages self ->
  logs_consistent (ChatMemory.max_messages self) st ->
  logs_consistent (ChatMemory.max_messages self)
                  (fst (ChatMemory.add_message self r c st)).
Proof.
  intros Hb [Hlen [older Hold]].
  rewrite add_message_unfold. cbv zeta. cbn [fst].
  split; cbn [messages full_history].
  - apply trim_bounded; [exact Hb |].
    rewrite length_app. cbn [length]. lia.
  - destruct (trim_is_suffix (ChatMemory.max_messages self)
                (full_history st ++ [{| role := r; content := c |}]))
      as [evicted Hev].
    exists (older ++ evicted).
    rewrite Hold, <- !app_assoc. f_equal. exact Hev.
Qed.

(** What holds of the logs before a call and is kept by the two appends
    holds after the call, however it ends. *)
Lemma query_deepseek_state_ind (float : Type)
    (requests_post : request float -> outcome response)
    (api_key : option str) (prompt system_prompt model : str)
    (memory : ChatMemory.t) (temperature : float) (st : session_state)
    (P : session_state -> Prop) :
  P st ->
  (forall s, P s ->
     P (fst (ChatMemory.add_message memory (pystr "user") (VStr prompt) s))) ->
  (forall req r data reply s,
      requests_post req = Return r ->
      response_json r = Return data ->
      extract_content data = Return reply ->
      P s ->
      P (fst (ChatMemory.add_message memory (pystr "assistant") reply s))) ->
  P (fst (query_deepseek requests_post api_key prompt system_prompt memory
                         model temperature st)).
Proof.
  intros H0 Huser Hreply.
  unfold query_deepseek, try_except_RequestException, bind, lift, ret.
  destruct api_key as [key |]; [| exact H0].
  destruct (requests_post _) as [r | e] eqn:Hpost; [| destruct e; exact H0].
  unfold raise_for_status.
  destruct ((400 <=? status_code r) && (status_code r <? 600)); [exact H0 |].
  destruct (status_code r =? 200); [| exact H0].
  destruct (response_json r) as [data | e] eqn:Hjson; [| destruct e; exact H0].
  destruct (extract_content data) as [reply | e] eqn:Hx; [| destruct e; exact H0].
  specialize (Huser st H0).
  destruct (ChatMemory.add_message memory (pystr "user") (VStr prompt) st)
    as [s1 [[] | e]]; cbn [fst] in Huser; [| destruct e; exact Huser].
  specialize (Hreply _ r data reply s1 Hpost Hjson Hx Huser).
  destruct (ChatMemory.add_message memory (pystr "assistant") reply s1)
    as [s2 [[] | e]]; cbn [fst] in Hreply; [| destruct e]; exact Hreply.
Qed.

Section Runs.

Variable float : Type.
Variable py_str : value -> str.
Variable exception_str : exception -> str.

Lemma handle_input_state (requests_post : request float -> outcome response)
      (api_key : option str) (memory : ChatMemory.t) (i : inputs float)
      (st : session_state) :
  exists shown,
    handle_input py_str exception_str requests_post api_key memory i st =
    (fst (query_deepseek requests_post api_key
            (full_prompt_of (user_input i) (file_context_of (uploaded_files i)))
            (system_role i) memory (model_choice i) (temperature_level i) st),
     Return shown).
Proof.
  destruct (query_deepseek requests_post api_key
              (full_prompt_of (user_input i) (file_context_of (uploaded_files i)))
              (system_role i) memory (model_choice i) (temperature_level i) st)
    as [st' o] eqn:Hq.
  rewrite (handle_input_of_query _ _ _ _ _ _ _ _ _ _ Hq).
  eexists. reflexivity.
Qed.

(** The three ways a run of the main page can end. *)
Lemma main_interface_cases (requests_post : request float -> outcome response)
      (api_key : option str) (i : inputs float)
      (session : option session_state) :
  let st := ChatMemory.initialize_session session in
  let memory := {| ChatMemory.max_messages := MAX_CONTEXT_MESSAGES |} in
  (exists shown e,
      render_history py_str (messages st) = (shown, Raise e) /\
      main_interface py_str exception_str requests_post api_key i session =
        (st, Raise e)) \/
  (exists shown,
      main_interface py_str exception_str requests_post api_key i session =
        (st, Return shown)) \/
  (exists shown,
      main_interface py_str exception_str requests_post api_key i session =
        (fst (query_deepseek requests_post api_key
                (full_prompt_of (user_input i)
                                (file_context_of (uploaded_files i)))
                (system_role i) memory (model_choice i) (temperature_level i)
                st),
         Return shown)).
Proof.
  cbv zeta. unfold main_interface.
  cbn [ChatMemory.init].
  destruct (render_history py_str
              (messages (ChatMemory.initialize_session session)))
    as [history [[] | e]].
  - destruct (handle_input_state requests_post api_key
                {| ChatMemory.max_messages := MAX_CONTEXT_MESSAGES |} i
                (ChatMemory.initialize_session session)) as [shown Hh].
    destruct (user_input i) eqn:Hu.
    + right; left. eexists. reflexivity.
    + right; right. unfold bind, ret. rewrite Hh.
      eexists. reflexivity.
  - left. now exists history, e.
Qed.

Lemma render_message_exceptions (msg : Message) (e : exception) :
  render_message py_str msg = Raise e ->
  (e = TypeError \/ e = AttributeError) /\
  ~ exists s, content msg = VStr s.
Proof.
  intros H.
  assert (Hn : ~ exists s, content msg = VStr s).
  { intros [s Hc].
    destruct (render_message_str py_str msg s Hc) as [shown [Hr _]].
    rewrite Hr in H. discriminate H. }
  split; [| exact Hn].
  unfold render_message in H.
  destruct (content msg) as [| b | n | q | s | l | d] eqn:Hc;
    cbn [value_contains obind] in H;
    try (injection H as <-; now left).
  - exfalso. apply Hn. now exists s.
  - destruct (existsb _ l); cbn [obind value_contains value_split] in H;
      [injection H as <-; now right |].
    destruct (existsb _ l); cbn [obind value_split] in H;
      [injection H as <-; now right | discriminate H].
  - destruct (existsb _ d); cbn [obind value_contains value_split] in H;
      [injection H as <-; now right |].
    destruct (existsb _ d); cbn [obind value_split] in H;
      [injection H as <-; now right | discriminate H].
Qed.

Lemma render_history_exceptions (msgs : list Message) (shown : list element)
      (e : exception) :
  render_history py_str msgs = (shown, Raise e) ->
  (e = TypeError \/ e = AttributeError) /\ ~ str_contents msgs.
Proof.
  revert shown. induction msgs as [| m msgs IH]; intros shown H;
    cbn [render_history] in H; [discriminate H |].
  destruct (render_message py_str m) as [first | e'] eqn:Hm.
  - destruct (render_history py_str msgs) as [more [[] | e'']] eqn:Hr;
      [discriminate H |].
    injection H as _ <-. destruct (IH more eq_refl) as [He Hn].
    split; [exact He |]. intros Hs. apply Hn.
    now inversion Hs.
  - injection H as _ <-.
    destruct (render_message_exceptions m e' Hm) as [He Hn].
    split; [exact He |]. intros Hs. apply Hn. now inversion Hs.
Qed.

End Runs.

Lemma add_message_display (self : ChatMemory.t) (r : str) (c : value)
      (st : session_state) :
  messages (fst (ChatMemory.add_message self r c st)) =
  messages st ++ [{| role := r; content := c |}].
Proof. rewrite add_message_unfold. reflexivity. Qed.

Lemma new_logs_consistent :
  logs_consistent MAX_CONTEXT_MESSAGES (ChatMemory.initialize_session None).
Proof. split; [cbn; discriminate | now exists []]. Qed.

(** X25. In every session the script can reach from a new one, whatever the
    widgets and the network did in the runs so far: when the session is
    logged in, the API key is in the session and is not empty (so the request
    never fails on the key lookup); the logs exist only once logged in; and
    the context log holds at most MAX_CONTEXT_MESSAGES entries and is the end
    of the display log. *)
Theorem reachable_sessions (float : Type) (py_str : value -> str)
    (exception_str : exception -> str) (s : app_session) :
  reachable (float := float) py_str exception_str s ->
  (logged_in s = Some true ->
   exists key, DEESEEK_API_KEY s = Some key /\ key <> []) /\
  (logged_in s <> Some true -> chat s = None) /\
  (forall st, chat s = Some st -> logs_consistent MAX_CONTEXT_MESSAGES st).
Proof.
  induction 1 as [| requests_post w s Hreach [IHkey [IHchat IHlogs]]].
  - cbn. repeat split; intros; discriminate || reflexivity.
  - unfold script.
    destruct (logged_in s) as [[|] |] eqn:Hlog.
    + destruct (main_interface py_str exception_str requests_post
                  (DEESEEK_API_KEY s) (main_inputs w) (chat s))
        as [st' r] eqn:Hmain.
      cbn [fst chat DEESEEK_API_KEY logged_in].
      split; [intros _; now apply IHkey |].
      split; [intros Hn; exfalso; now apply Hn |].
      intros st [= <-].
      assert (H0 : logs_consistent MAX_CONTEXT_MESSAGES
                     (ChatMemory.initialize_session (chat s))).
      { destruct (chat s) as [st0 |] eqn:Hc; [now apply IHlogs |].
        apply new_logs_consistent. }
      destruct (main_interface_cases float py_str exception_str requests_post
                  (DEESEEK_API_KEY s) (main_inputs w) (chat s))
        as [[shown [e [_ Hm]]] | [[shown Hm] | [shown Hm]]];
        rewrite Hm in Hmain; injection Hmain as <- _; try exact H0.
      apply query_deepseek_state_ind; [exact H0 | |].
      * intros s0 Hs0.
        apply (add_message_consistent
                 {| ChatMemory.max_messages := MAX_CONTEXT_MESSAGES |});
          [cbn; discriminate | exact Hs0].
      * intros _ _ _ reply s0 _ _ _ Hs0.
        apply (add_message_consistent
                 {| ChatMemory.max_messages := MAX_CONTEXT_MESSAGES |});
          [cbn; discriminate | exact Hs0].
    + assert (Hc : chat s = None) by (apply IHchat; discriminate).
      unfold login_page.
      destruct (login_button w); [destruct (login_api_key w) as [| c key] |];
        cbn [fst chat DEESEEK_API_KEY logged_in];
        rewrite ?Hlog, ?Hc;
        (split; [intros [=]; try (eexists; split; [reflexivity | discriminate]) |
                 split; [intros _; reflexivity || exact Hc | intros st [=]]]).
    + assert (Hc : chat s = None) by (apply IHchat; discriminate).
      unfold login_page.
      destruct (login_button w); [destruct (login_api_key w) as [| c key] |];
        cbn [fst chat DEESEEK_API_KEY logged_in];
        rewrite ?Hlog, ?Hc;
        (split; [intros [=]; try (eexists; split; [reflexivity | discriminate]) |
                 split; [intros _; reflexivity || exact Hc | intros st [=]]]).
Qed.

Lemma reachable_sessions_witness :
  (Some true = Some true ->
   exists key, Some (pystr "sk-1") = Some key /\ key <> []) /\
  (Some true <> Some true -> @None session_state = None) /\
  (forall st, None = Some st -> logs_consistent MAX_CONTEXT_MESSAGES st).
Proof.
  exact (reachable_sessions unit (fun _ => []) (fun _ => [])
           {| chat := None; DEESEEK_API_KEY := Some (pystr "sk-1");
              logged_in := Some true |}
           (@reachable_run unit (fun _ => []) (fun _ => [])
              (fun _ => Raise (RequestException []))
              {| login_api_key := pystr "sk-1"; login_button := true;
                 main_inputs :=
                   {| model_choice := []; temperature_level := tt;
                      system_role := []; uploaded_files := [];
                      user_input := [] |} |}
              _ (@reachable_new unit (fun _ => []) (fun _ => [])))).
Defined.

(** X26. A run of the script can only raise while the history is shown: if a
    run raises, the session is logged in, the exception is a TypeError or an
    AttributeError, the display log holds a message whose content is not a
    string, and the run leaves the session as it was. The login page and the
    handling of an input never raise. *)
Theorem script_raises_only_from_history (float : Type) (py_str : value -> str)
    (exception_str : exception -> str)
    (requests_post : request float -> outcome response)
    (w : widgets float) (s : app_session) (e : exception) :
  snd (script py_str exception_str requests_post w s) = Raise e ->
  (e = TypeError \/ e = AttributeError) /\
  logged_in s = Some true /\
  exists st,
    chat s = Some st /\ ~ str_contents (messages st) /\
    fst (script py_str exception_str requests_post w s) = s.
Proof.
  unfold script. destruct (logged_in s) as [[|] |] eqn:Hlog.
  2, 3: destruct (login_page _ _ s); cbn [snd]; discriminate.
  destruct (main_interface_cases float py_str exception_str requests_post
              (DEESEEK_API_KEY s) (main_inputs w) (chat s))
    as [[shown [e' [Hr Hm]]] | [[shown Hm] | [shown Hm]]];
    rewrite Hm; cbn [snd fst]; intros H; try discriminate H.
  injection H as <-.
  destruct (render_history_exceptions py_str _ _ _ Hr) as [He Hn].
  split; [exact He |]. split; [reflexivity |].
  destruct (chat s) as [st |] eqn:Hc.
  - exists st. cbn [ChatMemory.initialize_session] in *.
    split; [reflexivity |]. split; [exact Hn |].
    destruct s. cbn in *. now rewrite Hlog, Hc.
  - exfalso. apply Hn. constructor.
Qed.

Lemma script_raises_only_from_history_witness :
  (TypeError = TypeError \/ TypeError = AttributeError) /\
  Some true = Some true /\
  exists st,
    Some {| messages := [{| role := pystr "assistant"; content := VNone |}];
            full_history := [{| role := pystr "assistant"; content := VNone |}] |}
      = Some st /\
    ~ str_contents (messages st) /\
    fst (script (float := unit) (fun _ => []) (fun _ => [])
           (fun _ => Raise (RequestException []))
           {| login_api_key := []; login_button := false;
              main_inputs :=
                {| model_choice := []; temperature_level := tt;
                   system_role := []; uploaded_files := [];
                   user_input := pystr "q" |} |}
           {| chat := Some {| messages := [{| role := pystr "assistant"; content := VNone |}];
                              full_history := [{| role := pystr "assistant"; content := VNone |}] |};
              DEESEEK_API_KEY := Some (pystr "sk-1");
              logged_in := Some true |})
    = {| chat := Some {| messages := [{| role := pystr "assistant"; content := VNone |}];
                         full_history := [{| role := pystr "assistant"; content := VNone |}] |};
         DEESEEK_API_KEY := Some (pystr "sk-1");
         logged_in := Some true |}.
Proof.
  exact (script_raises_only_from_history unit (fun _ => []) (fun _ => [])
           (fun _ => Raise (RequestException []))
           {| login_api_key := []; login_button := false;
              main_inputs :=
                {| model_choice := []; temperature_level := tt;
                   system_role := []; uploaded_files := [];
                   user_input := pystr "q" |} |}
           {| chat := Some {| messages := [{| role := pystr "assistant"; content := VNone |}];
                              full_history := [{| role := pystr "assistant"; content := VNone |}] |};
              DEESEEK_API_KEY := Some (pystr "sk-1");
              logged_in := Some true |}
           TypeError eq_refl).
Defined.

(** X27. While every reply the network delivers has a string as its content,
    the page keeps working: if every content of the display log is a string
    and, in this run, any content extracted from a response is a string, then
    the run of the script ends normally and every content of the display log
    is still a string (so the same holds for the next run). *)
Theorem string_replies_keep_script_running (float : Type)
    (py_str : value -> str) (exception_str : exception -> str)
    (requests_post : request float -> outcome response)
    (w : widgets float) (s : app_session) :
  (forall st, chat s = Some st -> str_contents (messages st)) ->
  (forall req r data reply,
      requests_post req = Return r ->
      response_json r = Return data ->
      extract_content data = Return reply ->
      exists text, reply = VStr text) ->
  exists shown,
    snd (script py_str exception_str requests_post w s) = Return shown /\
    forall st,
      chat (fst (script py_str exception_str requests_post w s)) = Some st ->
      str_contents (messages st).
Proof.
  intros Hs Hnet. unfold script.
  destruct (logged_in s) as [[|] |] eqn:Hlog.
  2, 3: unfold login_page;
    destruct (login_button w); [destruct (login_api_key w) |];
    cbn [fst snd chat]; eexists; (split; [reflexivity | exact Hs]).
  assert (H0 : str_contents (messages (ChatMemory.initialize_session (chat s)))).
  { destruct (chat s) as [st |]; [now apply Hs | constructor]. }
  destruct (main_interface_cases float py_str exception_str requests_post
              (DEESEEK_API_KEY s) (main_inputs w) (chat s))
    as [[shown [e [Hr Hm]]] | [[shown Hm] | [shown Hm]]];
    rewrite Hm; cbn [fst snd chat].
  - exfalso. destruct (render_history_exceptions py_str _ _ _ Hr) as [_ Hn].
    now apply Hn.
  - exists shown. split; [reflexivity |]. now intros st [= <-].
  - exists shown. split; [reflexivity |]. intros st [= <-].
    apply (query_deepseek_state_ind float requests_post (DEESEEK_API_KEY s) _ _ _
             _ _ _ (fun st => str_contents (messages st))); [exact H0 | |].
    + intros s0 Hs0.
      rewrite add_message_display.
      apply str_contents_app; [exact Hs0 |].
      constructor; [now eexists | constructor].
    + intros req r data reply s0 Hp Hj Hx Hs0.
      destruct (Hnet req r data reply Hp Hj Hx) as [text ->].
      rewrite add_message_display.
      apply str_contents_app; [exact Hs0 |].
      constructor; [now eexists | constructor].
Qed.

Lemma string_replies_keep_script_running_witness :
  exists shown,
    snd (script (float := unit) (fun _ => []) (fun _ => [])
           (fun _ => Return {| status_code := 200;
                               response_json :=
                                 Return (VDict [(pystr "choices",
                                   VList [VDict [(pystr "message",
                                     VDict [(pystr "content", VStr (pystr "Hi"))])]])]) |})
           {| login_api_key := []; login_button := false;
              main_inputs :=
                {| model_choice := pystr "deepseek-chat"; temperature_level := tt;
                   system_role := pystr "s"; uploaded_files := [];
                   user_input := pystr "q" |} |}
           {| chat := None; DEESEEK_API_KEY := Some (pystr "sk-1");
              logged_in := Some true |}) = Return shown.
Proof.
  destruct (string_replies_keep_script_running unit (fun _ => []) (fun _ => [])
              (fun _ => Return {| status_code := 200;
                                  response_json :=
                                    Return (VDict [(pystr "choices",
                                      VList [VDict [(pystr "message",
                                        VDict [(pystr "content", VStr (pystr "Hi"))])]])]) |})
              {| login_api_key := []; login_button := false;
                 main_inputs :=
                   {| model_choice := pystr "deepseek-chat"; temperature_level := tt;
                      system_role := pystr "s"; uploaded_files := [];
                      user_input := pystr "q" |} |}
              {| chat := None; DEESEEK_API_KEY := Some (pystr "sk-1");
                 logged_in := Some true |})
    as [shown [Hrun _]].
  - intros st H. discriminate H.
  - intros req r data reply Hp Hj Hx.
    injection Hp as <-. cbn [response_json] in Hj. injection Hj as <-.
    cbv in Hx. injection Hx as <-. now eexists.
  - exists shown. exact Hrun.
Defined.

(** ** The window of [get_context] and the commit of an empty reply *)

Lemma logs_after_consistent (self : ChatMemory.t) (calls : list (str * value)) :
  0 <= ChatMemory.max_messages self ->
  forall st,
    logs_consistent (ChatMemory.max_messages self) st ->
    logs_consistent (ChatMemory.max_messages self) (logs_after self calls st).
Proof.
  intros Hb. induction calls as [| c calls IH]; intros st Hst; [exact Hst |].
  cbn [logs_after fold_left]. apply IH.
  now apply add_message_consistent.
Qed.

(** C5. [get_context(p)] is the system message with content [p] followed by
    the last [max_messages] entries of the context log, so it begins with
    that one system message: on every log state a memory with a bound
    [max_messages >= 0] reaches from a new session (the empty log, and the
    logs after any [add_message] calls, of any content and however they
    end), and, when [max_messages >= 1], on every log state whatever. The
    call only reads the session: it is a function of the logs and returns a
    new list. *)
Theorem get_context_is_window (bound : Z) (calls : list (str * value))
    (p : str) :
  0 <= bound ->
  let memory := {| ChatMemory.max_messages := bound |} in
  let st := logs_after memory calls (ChatMemory.initialize_session None) in
  ChatMemory.get_context memory p st =
    {| role := pystr "system"; content := VStr p |}
      :: last_entries (Z.to_nat bound) (full_history st) /\
  (1 <= bound ->
   forall any : session_state,
     ChatMemory.get_context memory p any =
       {| role := pystr "system"; content := VStr p |}
         :: last_entries (Z.to_nat bound) (full_history any)) /\
  ChatMemory.get_context memory p (ChatMemory.initialize_session None) =
    [{| role := pystr "system"; content := VStr p |}].
Proof.
  intros Hb memory st. split; [| split].
  - apply (get_context_window memory p st). right.
    split; [exact Hb |].
    assert (H : logs_consistent (ChatMemory.max_messages memory) st).
    { apply logs_after_consistent; [exact Hb |].
      split; [exact Hb | now exists []]. }
    destruct H as [Hlen _]. cbn [ChatMemory.max_messages memory] in *. lia.
  - intros H1 any. apply (get_context_window memory p any). left.
    cbn [ChatMemory.max_messages memory]. lia.
  - unfold ChatMemory.get_context. cbn [ChatMemory.initialize_session full_history].
    now rewrite slice_from_nil.
Qed.

Lemma get_context_is_window_witness :
  0 <= 0 /\
  ChatMemory.get_context {| ChatMemory.max_messages := 0 |} (pystr "p")
    (logs_after {| ChatMemory.max_messages := 0 |}
       [(pystr "user", VStr (pystr "a")); (pystr "assistant", VNone)]
       (ChatMemory.initialize_session None)) =
  {| role := pystr "system"; content := VStr (pystr "p") |}
    :: last_entries (Z.to_nat 0)
         (full_history
            (logs_after {| ChatMemory.max_messages := 0 |}
               [(pystr "user", VStr (pystr "a")); (pystr "assistant", VNone)]
               (ChatMemory.initialize_session None))).
Proof.
  split; [lia |].
  exact (proj1 (get_context_is_window 0
                  [(pystr "user", VStr (pystr "a")); (pystr "assistant", VNone)]
                  (pystr "p") (Z.le_refl 0))).
Defined.




